(** * Contact form submission pipeline and telemetry ticker

    A shallow embedding of [frontend/src/components/ContactForm.jsx]
    (validation engine and submission state machine) and of the telemetry
    interval of [App], with the properties the specification states about
    them. *)

From Stdlib Require Import NArith ZArith QArith Qround Qabs Lia Lqa.
From Stdlib Require Import String Ascii List.
From stdpp Require Import gmap strings list fin_maps pretty.

Local Open Scope string_scope.
Local Open Scope list_scope.

(** ** JavaScript strings and values *)

(** A JavaScript string is a sequence of UTF-16 code units; [length] is the
    [.length] of the source. *)
Abbreviation jsstring := (list N).

(** A string literal of the source (all of them are ASCII). *)
Definition lit (s : string) : jsstring :=
  map N_of_ascii (list_ascii_of_string s).

(** The values the component stores in its objects. *)
Inductive jsval :=
  | VUndefined
  | VNull
  | VBool (b : bool)
  | VStr (s : jsstring).

(** ToBoolean. *)
Definition truthy (v : jsval) : bool :=
  match v with
  | VUndefined | VNull => false
  | VBool b => b
  | VStr s => match s with [] => false | _ => true end
  end.

(** White space and line terminators: what [\s] matches and what
    [String.prototype.trim] removes. *)
Definition is_space (c : N) : bool :=
  ((9 <=? c) && (c <=? 13) || (c =? 32) || (c =? 160) || (c =? 5760)
   || (8192 <=? c) && (c <=? 8202) || (c =? 8232) || (c =? 8233)
   || (c =? 8239) || (c =? 8287) || (c =? 12288) || (c =? 65279))%N.

Fixpoint trimStart (s : jsstring) : jsstring :=
  match s with
  | c :: s' => if is_space c then trimStart s' else s
  | [] => []
  end.

Definition trim (s : jsstring) : jsstring :=
  rev (trimStart (rev (trimStart s))).

(** [value.trim()]: a method of strings only; on any other value the call
    throws ([None]). *)
Definition trim_of (v : jsval) : option jsstring :=
  match v with
  | VStr s => Some (trim s)
  | _ => None
  end.

(** ** Regular expressions

    The two patterns of [validateField] are anchored at both ends, so
    [RegExp.prototype.test] is a whole-string match; it is decided with
    derivatives. *)
Module Regex.

Inductive t :=
  | Void
  | Eps
  | Class (p : N → bool)
  | Seq (r1 r2 : t)
  | Alt (r1 r2 : t)
  | Star (r : t).

(** [r+], [r?] and [r{0,n}]. *)
Definition Plus (r : t) : t := Seq r (Star r).
Definition Opt (r : t) : t := Alt r Eps.
Fixpoint Upto (n : nat) (r : t) : t :=
  match n with
  | O => Eps
  | S n' => Alt Eps (Seq r (Upto n' r))
  end.

Fixpoint nullable (r : t) : bool :=
  match r with
  | Void => false
  | Eps => true
  | Class _ => false
  | Seq r1 r2 => nullable r1 && nullable r2
  | Alt r1 r2 => nullable r1 || nullable r2
  | Star _ => true
  end.

Fixpoint deriv (c : N) (r : t) : t :=
  match r with
  | Void => Void
  | Eps => Void
  | Class p => if p c then Eps else Void
  | Seq r1 r2 =>
      if nullable r1 then Alt (Seq (deriv c r1) r2) (deriv c r2)
      else Seq (deriv c r1) r2
  | Alt r1 r2 => Alt (deriv c r1) (deriv c r2)
  | Star r' => Seq (deriv c r') (Star r')
  end.

(** [/^r$/.test(s)] *)
Fixpoint test (r : t) (s : jsstring) : bool :=
  match s with
  | [] => nullable r
  | c :: s' => test (deriv c r) s'
  end.

(** The language of a pattern, to check the matcher against. *)
Inductive Matches : t → jsstring → Prop :=
  | MEps : Matches Eps []
  | MClass p c : p c = true → Matches (Class p) [c]
  | MSeq r1 r2 s1 s2 :
      Matches r1 s1 → Matches r2 s2 → Matches (Seq r1 r2) (s1 ++ s2)
  | MAltL r1 r2 s : Matches r1 s → Matches (Alt r1 r2) s
  | MAltR r1 r2 s : Matches r2 s → Matches (Alt r1 r2) s
  | MStarNil r : Matches (Star r) []
  | MStarApp r s1 s2 :
      Matches r s1 → Matches (Star r) s2 → Matches (Star r) (s1 ++ s2).

End Regex.

(** Character classes of the source patterns. *)
Definition is_digit (c : N) : bool := ((48 <=? c) && (c <=? 57))%N.
Definition is_1_9 (c : N) : bool := ((49 <=? c) && (c <=? 57))%N.
Definition is_char (a : N) (c : N) : bool := (c =? a)%N.
(** [[^\s@]] *)
Definition not_space_at (c : N) : bool := negb (is_space c || (c =? 64)%N).
(** [[\s\-\(\)]] *)
Definition is_phone_filler (c : N) : bool :=
  is_space c || (c =? 45)%N || (c =? 40)%N || (c =? 41)%N.

(** [/^[^\s@]+@[^\s@]+\.[^\s@]+$/] *)
Definition emailRegex : Regex.t :=
  Regex.Seq (Regex.Plus (Regex.Class not_space_at))
    (Regex.Seq (Regex.Class (is_char 64))
       (Regex.Seq (Regex.Plus (Regex.Class not_space_at))
          (Regex.Seq (Regex.Class (is_char 46))
             (Regex.Plus (Regex.Class not_space_at))))).

(** [/^[\+]?[1-9][\d]{0,15}$/] *)
Definition phoneRegex : Regex.t :=
  Regex.Seq (Regex.Opt (Regex.Class (is_char 43)))
    (Regex.Seq (Regex.Class is_1_9)
       (Regex.Upto 15 (Regex.Class is_digit))).

(** [value.replace(/[\s\-\(\)]/g, '')] *)
Definition strip_phone (s : jsstring) : jsstring :=
  List.filter (λ c, negb (is_phone_filler c)) s.

(** ** Validation engine *)

(** [validateField(name, value)]; [None] is a thrown [TypeError] (a string
    method called on a value that is not a string). *)
Definition validateField (name : string) (value : jsval)
  : option (gmap string jsval) :=
  let errors : gmap string jsval := ∅ in
  if String.eqb name "name" then
    t ← trim_of value;
    Some (if negb (truthy (VStr t)) then
            <["name" := VStr (lit "Name is required")]> errors
          else if (length t <? 2)%nat then
            <["name" := VStr (lit "Name must be at least 2 characters")]> errors
          else if (100 <? length t)%nat then
            <["name" := VStr (lit "Name must be less than 100 characters")]> errors
          else errors)
  else if String.eqb name "email" then
    match value with
    | VStr s =>
        Some (if negb (truthy (VStr (trim s))) then
                <["email" := VStr (lit "Email is required")]> errors
              else if negb (Regex.test emailRegex s) then
                <["email" := VStr (lit "Please enter a valid email address")]> errors
              else errors)
    | _ => None
    end
  else if String.eqb name "company" then
    t ← trim_of value;
    Some (if negb (truthy (VStr t)) then
            <["company" := VStr (lit "Company is required")]> errors
          else if (length t <? 2)%nat then
            <["company" := VStr (lit "Company name must be at least 2 characters")]> errors
          else if (100 <? length t)%nat then
            <["company" := VStr (lit "Company name must be less than 100 characters")]> errors
          else errors)
  else if String.eqb name "phone" then
    if truthy value then
      match value with
      | VStr s =>
          Some (if negb (Regex.test phoneRegex (strip_phone s)) then
                  <["phone" := VStr (lit "Please enter a valid phone number")]> errors
                else errors)
      | _ => None
      end
    else Some errors
  else if String.eqb name "message" then
    t ← trim_of value;
    Some (if negb (truthy (VStr t)) then
            <["message" := VStr (lit "Message is required")]> errors
          else if (length t <? 10)%nat then
            <["message" := VStr (lit "Message must be at least 10 characters")]> errors
          else if (2000 <? length t)%nat then
            <["message" := VStr (lit "Message must be less than 2000 characters")]> errors
          else errors)
  else if String.eqb name "preferred_contact_method" then
    Some (if negb (truthy value) then
            <["preferred_contact_method" :=
                VStr (lit "Please select a preferred contact method")]> errors
          else errors)
  else Some errors.


(** The form record: [formData]. *)
Record FormData := mkFormData {
  name : jsstring;
  email : jsstring;
  company : jsstring;
  phone : jsstring;
  message : jsstring;
  preferred_contact_method : jsstring;
  consent_marketing : bool;
  consent_data_processing : bool
}.

(** The initial value of [useState] for [formData], also what [resetForm]
    sets. *)
Definition emptyFormData : FormData :=
  {| name := []; email := []; company := []; phone := []; message := [];
     preferred_contact_method := [];
     consent_marketing := false; consent_data_processing := false |}.

(** [Object.keys(formData)], in insertion order. *)
Definition formData_keys : list string :=
  ["name"; "email"; "company"; "phone"; "message";
   "preferred_contact_method"; "consent_marketing";
   "consent_data_processing"].

(** [formData[key]] *)
Definition get_field (fd : FormData) (key : string) : jsval :=
  if String.eqb key "name" then VStr (name fd)
  else if String.eqb key "email" then VStr (email fd)
  else if String.eqb key "company" then VStr (company fd)
  else if String.eqb key "phone" then VStr (phone fd)
  else if String.eqb key "message" then VStr (message fd)
  else if String.eqb key "preferred_contact_method" then
    VStr (preferred_contact_method fd)
  else if String.eqb key "consent_marketing" then VBool (consent_marketing fd)
  else if String.eqb key "consent_data_processing" then
    VBool (consent_data_processing fd)
  else VUndefined.

(** The body of the [forEach] of [validateForm] over a list of keys;
    [Object.assign(errors, fieldErrors)] lets [fieldErrors] overwrite. *)
Fixpoint validateForm_forEach (formData : FormData) (keys : list string)
    (errors : gmap string jsval) : option (gmap string jsval) :=
  match keys with
  | [] => Some errors
  | key :: keys' =>
      if negb (String.eqb key "phone") then
        fieldErrors ← validateField key (get_field formData key);
        validateForm_forEach formData keys' (fieldErrors ∪ errors)
      else validateForm_forEach formData keys' errors
  end.

(** [validateForm()], on the [formData] of the render it closes over. *)
Definition validateForm (formData : FormData) : option (gmap string jsval) :=
  errors ← validateForm_forEach formData formData_keys ∅;
  Some (if negb (consent_data_processing formData) then
          <["consent_data_processing" :=
              VStr (lit "Data processing consent is required")]> errors
        else errors).

(** Scenario record of the specification. *)
Definition annLee : FormData :=
  {| name := lit "Ann Lee"; email := lit "ann@ex.com"; company := lit "Acme";
     phone := [];
     message := lit "Interested in your platform for six months.";
     preferred_contact_method := lit "email";
     consent_marketing := false; consent_data_processing := true |}.

(** ** Submission state machine *)

(** [formState]; [submissionStartTime] is [null] ([None]) or a number of
    milliseconds. *)
Record FormState := mkFormState {
  isSubmitting : bool;
  isSubmitted : bool;
  error : jsval;
  validationErrors : gmap string jsval;
  submissionStartTime : option Z;
  eventId : jsval;
  correlationId : jsval
}.

(** The initial value of [useState] for [formState], also what [resetForm]
    sets. *)
Definition initialFormState : FormState :=
  {| isSubmitting := false; isSubmitted := false; error := VNull;
     validationErrors := ∅; submissionStartTime := None;
     eventId := VNull; correlationId := VNull |}.

(** The three pieces of state of the component. [sessionId] is declared as
    [const [sessionId] = useState(...)]: it has no setter. *)
Record Component := mkComponent {
  formData : FormData;
  formState : FormState;
  sessionId : jsstring
}.

(** The JSON body of the request. *)
Record Payload := mkPayload {
  form_data : FormData;
  session_id : jsstring;
  form_version : jsstring;
  submission_duration_ms : Z
}.

(** How the awaited [fetch] and [response.json()] settle: [fetch] rejects,
    [response.json()] rejects, or the body parses to a JSON object whose
    members are strings, booleans or [null]. A body that parses to anything
    else is not among these outcomes; in particular not the body [null], on
    which [result.event_id] and [result.error] throw. *)
Inductive Outcome :=
  | FetchRejected (msg : jsstring)
  | JsonRejected (status : N) (msg : jsstring)
  | Responded (status : N) (result : gmap string jsval).

(** [response.ok]: the status is in the range 200 to 299. *)
Definition ok (status : N) : bool := ((200 <=? status) && (status <=? 299))%N.

(** [result.key] *)
Definition prop (result : gmap string jsval) (key : string) : jsval :=
  default VUndefined (result !! key).

(** [a || b] *)
Definition js_or (a b : jsval) : jsval := if truthy a then a else b.

(** The message of [new Error(v)]: [undefined] gives the empty message,
    anything else its string conversion. *)
Definition error_message (v : jsval) : jsstring :=
  match v with
  | VUndefined => []
  | VNull => lit "null"
  | VBool true => lit "true"
  | VBool false => lit "false"
  | VStr s => s
  end.

(** [`sess_${Date.now()}_${Math.random().toString(36).substr(2, 9)}`]; the
    clock reading and the characters drawn from the random source are the
    environment's. *)
Definition newSessionId (now : Z) (rnd : jsstring) : jsstring :=
  lit "sess_" ++ lit (pretty now) ++ lit "_" ++ rnd.

(** The component as first rendered. *)
Definition mount (now : Z) (rnd : jsstring) : Component :=
  {| formData := emptyFormData; formState := initialFormState;
     sessionId := newSessionId now rnd |}.

(** [{ ...prev, [name]: value }] on [formData]. Every call site passes one
    of the eight keys with a value of that field's type (a string from an
    input or the select, a boolean from a checkbox); the record models these
    and is left as it is for any other pair. *)
Definition set_field (prev : FormData) (name : string) (value : jsval)
  : FormData :=
  let '(mkFormData n e c p m pcm cm cdp) := prev in
  match value with
  | VStr s =>
      if String.eqb name "name" then mkFormData s e c p m pcm cm cdp
      else if String.eqb name "email" then mkFormData n s c p m pcm cm cdp
      else if String.eqb name "company" then mkFormData n e s p m pcm cm cdp
      else if String.eqb name "phone" then mkFormData n e c s m pcm cm cdp
      else if String.eqb name "message" then mkFormData n e c p s pcm cm cdp
      else if String.eqb name "preferred_contact_method" then
        mkFormData n e c p m s cm cdp
      else prev
  | VBool b =>
      if String.eqb name "consent_marketing" then
        mkFormData n e c p m pcm b cdp
      else if String.eqb name "consent_data_processing" then
        mkFormData n e c p m pcm cm b
      else prev
  | _ => prev
  end.

(** [{ ...prev, isSubmitting: b }] *)
Definition with_isSubmitting (prev : FormState) (b : bool) : FormState :=
  mkFormState b (isSubmitted prev) (error prev) (validationErrors prev)
    (submissionStartTime prev) (eventId prev) (correlationId prev).

(** [{ ...prev, validationErrors: ve }] *)
Definition with_validationErrors (prev : FormState)
    (ve : gmap string jsval) : FormState :=
  mkFormState (isSubmitting prev) (isSubmitted prev) (error prev) ve
    (submissionStartTime prev) (eventId prev) (correlationId prev).

(** [handleInputChange(name, value)] *)
Definition handleInputChange (name : string) (value : jsval) (c : Component)
  : Component :=
  let formData' := set_field (formData c) name value in
  let formState' :=
    if truthy (prop (validationErrors (formState c)) name) then
      with_validationErrors (formState c)
        (<[name := VUndefined]> (validationErrors (formState c)))
    else formState c in
  mkComponent formData' formState' (sessionId c).

(** [handleBlur(name, value)]; if [validateField] throws, the handler is
    left before any state is set. *)
Definition handleBlur (name : string) (value : jsval) (c : Component)
  : Component :=
  match validateField name value with
  | Some fieldErrors =>
      mkComponent (formData c)
        (with_validationErrors (formState c)
           (fieldErrors ∪ validationErrors (formState c)))
        (sessionId c)
  | None => c
  end.

(** [handleSubmit], up to the [await] of [fetch]: the next state and the
    request handed to the transport, if any. [now0] and [now1] are the two
    readings of [Date.now()]. If [validateForm] throws, the handler is left
    after the first [setFormState]. *)
Definition handleSubmit_start (now0 now1 : Z) (c : Component)
  : Component * option Payload :=
  let prev := formState c in
  let st1 :=
    mkFormState true (isSubmitted prev) VNull (validationErrors prev)
      (Some now0) (eventId prev) (correlationId prev) in
  match validateForm (formData c) with
  | None => (mkComponent (formData c) st1 (sessionId c), None)
  | Some validationErrors =>
      if (0 <? size validationErrors)%nat then
        (mkComponent (formData c)
           (with_validationErrors (with_isSubmitting st1 false)
              validationErrors)
           (sessionId c), None)
      else
        let submissionDuration := (now1 - now0)%Z in
        let payload :=
          {| form_data := formData c; session_id := sessionId c;
             form_version := lit "1.0.0";
             submission_duration_ms := submissionDuration |} in
        (mkComponent (formData c) st1 (sessionId c), Some payload)
  end.

(** The [catch] block: [{ ...prev, isSubmitting: false, error: msg }] *)
Definition handleSubmit_catch (msg : jsstring) (prev : FormState)
  : FormState :=
  mkFormState false (isSubmitted prev) (VStr msg) (validationErrors prev)
    (submissionStartTime prev) (eventId prev) (correlationId prev).

(** [handleSubmit], from the point where the awaited request settles. *)
Definition handleSubmit_settle (o : Outcome) (prev : FormState)
  : FormState :=
  match o with
  | FetchRejected msg => handleSubmit_catch msg prev
  | JsonRejected _ msg => handleSubmit_catch msg prev
  | Responded status result =>
      if ok status then
        mkFormState false true (error prev) (validationErrors prev)
          (submissionStartTime prev) (prop result "event_id")
          (prop result "correlation_id")
      else
        handleSubmit_catch
          (error_message
             (js_or (prop result "error") (VStr (lit "Failed to submit form"))))
          prev
  end.

(** [resetForm()]: both objects are set to their initial values; nothing
    else is touched. *)
Definition resetForm (c : Component) : Component :=
  mkComponent emptyFormData initialFormState (sessionId c).

(** ** The rendered form and its events *)

(** The component together with the transport it talks to: the requests
    in flight and the log of every request handed to [fetch]. *)
Record Machine := mkMachine {
  comp : Component;
  inflight : list Payload;
  sent : list Payload
}.

(** The thank-you card replaces the form when [formState.isSubmitted]. *)
Definition form_rendered (c : Component) : bool :=
  negb (isSubmitted (formState c)).

(** [disabled={formState.isSubmitting}] on every input, the select, both
    checkboxes and the submit button. *)
Definition controls_disabled (c : Component) : bool :=
  isSubmitting (formState c).

(** The keys whose control has an [onChange] or [onValueChange] or
    [onCheckedChange] handler, with the type of value it passes. *)
Definition change_site (name : string) (value : jsval) : bool :=
  match value with
  | VStr _ =>
      bool_decide (name ∈ ["name"; "email"; "company"; "phone"; "message";
                           "preferred_contact_method"])
  | VBool _ =>
      bool_decide (name ∈ ["consent_marketing"; "consent_data_processing"])
  | _ => false
  end.

(** The keys whose control has an [onBlur] handler. *)
Definition blur_site (name : string) : bool :=
  bool_decide (name ∈ ["name"; "email"; "company"; "phone"; "message"]).

(** What can happen to a mounted form. [Submit] is the form's [submit]
    event as it is delivered to [onSubmit]. The form is not [noValidate] and
    its email input has [type="email"], so a browser first checks that
    control itself and delivers no event for a click it stops there; which
    values it stops is not modelled, so [Submit] ranges over every record,
    more than a browser delivers. *)
Inductive Event :=
  | Change (name : string) (value : jsval)
  | Blur (name : string)
  | Submit (now0 now1 : Z)
  | Reset
  | Settle (i : nat) (o : Outcome).

(** One event. An event on a control that is not rendered or is disabled
    does not reach its handler; a [submit] event that is delivered runs
    [handleSubmit]; a blur passes the value of the controlled input;
    [Settle i o] settles the [i]-th request in flight with [o]. *)
Definition dispatch (e : Event) (m : Machine) : Machine :=
  let c := comp m in
  match e with
  | Change name value =>
      if form_rendered c && negb (controls_disabled c)
         && change_site name value
      then mkMachine (handleInputChange name value c) (inflight m) (sent m)
      else m
  | Blur name =>
      if form_rendered c && negb (controls_disabled c) && blur_site name
      then mkMachine (handleBlur name (get_field (formData c) name) c)
             (inflight m) (sent m)
      else m
  | Submit now0 now1 =>
      if form_rendered c && negb (controls_disabled c) then
        match handleSubmit_start now0 now1 c with
        | (c', Some payload) =>
            mkMachine c' (inflight m ++ [payload]) (sent m ++ [payload])
        | (c', None) => mkMachine c' (inflight m) (sent m)
        end
      else m
  | Reset =>
      if isSubmitted (formState c)
      then mkMachine (resetForm c) (inflight m) (sent m)
      else m
  | Settle i o =>
      match inflight m !! i with
      | Some _ =>
          mkMachine
            (mkComponent (formData c) (handleSubmit_settle o (formState c))
               (sessionId c))
            (delete i (inflight m)) (sent m)
      | None => m
      end
  end.

Definition run (es : list Event) (m : Machine) : Machine :=
  foldl (λ m e, dispatch e m) m es.

(** A freshly mounted form with an idle transport. *)
Definition start (now : Z) (rnd : jsstring) : Machine :=
  mkMachine (mount now rnd) [] [].

(** The machines a mounted form can be in. *)
Inductive reachable : Machine → Prop :=
  | reachable_start now rnd : reachable (start now rnd)
  | reachable_step e m : reachable m → reachable (dispatch e m).

(** The submission state of the specification, read off [formState] in
    the order the render tests it: the thank-you card for [isSubmitted],
    the spinner for [isSubmitting], the alert for [error]. *)
Inductive SubmissionState :=
  | Idle
  | Submitting
  | Submitted (eventId correlationId : jsval)
  | Failed (message : jsval).

Definition submissionState (fs : FormState) : SubmissionState :=
  if isSubmitted fs then Submitted (eventId fs) (correlationId fs)
  else if isSubmitting fs then Submitting
  else match error fs with
       | VNull => Idle
       | msg => Failed msg
       end.

(** A mock transport answering every request with [o], and one submit
    attempt against it. *)
Definition submit_against (o : Outcome) (now0 now1 : Z) (m : Machine)
  : Machine :=
  dispatch (Settle 0 o) (dispatch (Submit now0 now1) m).

(** ** Telemetry ticker *)

Module Telemetry.

(** [stats] of [App]. The two counters are JavaScript numbers holding
    integers, small enough (below 2^53) for their additions to be exact. *)
Record Stats := mkStats {
  eventsProcessed : Z;
  avgResponseTime : Z;
  systemHealth : string
}.

(** The initial value of [useState] for [stats]. *)
Definition initialStats : Stats :=
  {| eventsProcessed := 0; avgResponseTime := 0; systemHealth := "healthy" |}.

(** The finite values of a JavaScript number: an integer of magnitude
    below 2^53 scaled by a power of two from 2^-1074 to 2^971. *)
Definition is_double (x : Q) : Prop :=
  ∃ m k : Z, (Z.abs m < 2 ^ 53)%Z
    ∧ ((0 ≤ k ≤ 971)%Z ∧ (x == inject_Z (m * 2 ^ k))%Q
       ∨ (0 ≤ k ≤ 1074)%Z ∧ (x * inject_Z (2 ^ k) == inject_Z m)%Q).

(** [y] is a value that a correctly rounded operation may return for the
    exact result [x]: a number such that no number is nearer to [x]. *)
Definition nearest (x y : Q) : Prop :=
  is_double y ∧ ∀ z, is_double z → (Qabs (x - y) <= Qabs (x - z))%Q.

(** The number the literal [0.1] denotes. *)
Definition one_tenth : Q := 3602879701896397 # 36028797018963968.

(** What [Math.random()] can return: a number from 0 inclusive to 1
    exclusive. *)
Definition is_random (r : Q) : Prop :=
  is_double r ∧ (0 <= r)%Q ∧ (r < 1)%Q.

(** The updater the interval callback hands to [setStats]. [mul] is the
    multiplication of numbers; [r1], [r2] and [r3] are the results of the
    three calls of [Math.random()], in the order the object literal
    evaluates them. *)
Definition tick (mul : Q → Q → Q) (r1 r2 r3 : Q) (prev : Stats) : Stats :=
  {| eventsProcessed := eventsProcessed prev + Qfloor (mul r1 3%Q);
     avgResponseTime := 150 + Qfloor (mul r2 100%Q);
     systemHealth :=
       if Qlt_le_dec one_tenth r3 then "healthy" else "degraded" |}.

End Telemetry.

(** ** Shapes and bounds named by the specification *)

(** An optional [+], a first digit from 1 to 9, then at most fifteen more
    digits: what [phoneRegex] accepts. *)
Definition intl_digits (t : jsstring) : bool :=
  let u := match t with
           | c :: u => if (c =? 43)%N then u else t
           | [] => t
           end in
  match u with
  | d :: ds => is_1_9 d && forallb is_digit ds && (length ds <=? 15)%nat
  | [] => false
  end.

(** An optional [+], then one to sixteen digits: the shape the
    specification's table describes for the phone field. *)
Definition digits_1_16 (t : jsstring) : bool :=
  let u := match t with
           | c :: u => if (c =? 43)%N then u else t
           | [] => t
           end in
  forallb is_digit u && (1 <=? length u)%nat && (length u <=? 16)%nat.

(** The bounds the specification's table gives for the length-bounded
    fields. *)
Definition length_bounds (field : string) : option (nat * nat) :=
  if String.eqb field "name" then Some (2, 100)%nat
  else if String.eqb field "company" then Some (2, 100)%nat
  else if String.eqb field "message" then Some (10, 2000)%nat
  else None.

(** The request [handleSubmit] builds. *)
Definition payload_of (c : Component) (now0 now1 : Z) : Payload :=
  {| form_data := formData c; session_id := sessionId c;
     form_version := lit "1.0.0";
     submission_duration_ms := (now1 - now0)%Z |}.


(** ** Scenarios *)

(** The events of a user filling in every control with the values of
    [fd]. *)
Definition fill (fd : FormData) : list Event :=
  [Change "name" (VStr (name fd)); Change "email" (VStr (email fd));
   Change "company" (VStr (company fd)); Change "phone" (VStr (phone fd));
   Change "message" (VStr (message fd));
   Change "preferred_contact_method" (VStr (preferred_contact_method fd));
   Change "consent_marketing" (VBool (consent_marketing fd));
   Change "consent_data_processing"
     (VBool (consent_data_processing fd))].

(** A mounted form filled in with [fd]. *)
Definition filled (fd : FormData) : Machine :=
  run (fill fd) (start 1700000000000 (lit "k3j9x0q2m")).

(** The success body of scenario 1 and the rejection body of scenario 2. *)
Definition ack1 : gmap string jsval :=
  {[ "event_id" := VStr (lit "ev-1");
     "correlation_id" := VStr (lit "corr-1") ]}.

Definition duplicate : gmap string jsval :=
  {[ "error" := VStr (lit "duplicate submission") ]}.

(** The record of scenario 3, and one with a phone value the phone rule
    rejects. *)
Definition notAnEmail : FormData :=
  set_field annLee "email" (VStr (lit "not-an-email")).

Definition badPhone : FormData :=
  set_field annLee "phone" (VStr (lit "abc")).

(** A form on which a phone error was recorded on blur before the
    submit. *)
Definition phoneBlurred : Machine :=
  run [Change "phone" (VStr (lit "abc")); Blur "phone"] (filled annLee).

(** The form of scenario 1 after its acknowledged submission. *)
Definition acknowledged : Machine :=
  submit_against (Responded 200 ack1) 1000 1001 (filled annLee).

(** The transport agrees with the flags: a request is in flight exactly
    while [isSubmitting], there is never more than one, and the thank-you
    card is never shown while submitting. *)
Definition consistent (m : Machine) : Prop :=
  (if isSubmitting (formState (comp m))
   then length (inflight m) = 1%nat
   else inflight m = [])
  ∧ (isSubmitted (formState (comp m)) = true →
     isSubmitting (formState (comp m)) = false).

(** ** Further notions used by the properties of the handlers *)

(** The message the current record earns under [key]: the consent message
    when [consent_data_processing] is [false], and otherwise the entry, if
    any, that [validateField] reports for the field's current value under
    the field's own key. *)
Definition earned_error (fd : FormData) (key : string) : option jsval :=
  if String.eqb key "consent_data_processing" then
    if consent_data_processing fd then None
    else Some (VStr (lit "Data processing consent is required"))
  else validateField key (get_field fd key) ≫= (λ fe, fe !! key).

(** The events that answer a request in flight. *)
Definition is_settle (e : Event) : bool :=
  match e with
  | Settle _ _ => true
  | _ => false
  end.

(** The outcomes the success branch of [handleSubmit] handles. *)
Definition acknowledges (o : Outcome) : bool :=
  match o with
  | Responded status _ => ok status
  | _ => false
  end.

(** Telemetry over several intervals: each element of [draws] holds the
    three results of [Math.random()] of one tick. *)
Definition ticks (mul : Q → Q → Q) (draws : list (Q * Q * Q))
    (s : Telemetry.Stats) : Telemetry.Stats :=
  foldl (λ s d, Telemetry.tick mul d.1.1 d.1.2 d.2 s) s draws.

(** The draws of one tick are results of [Math.random()] and [mul] rounds
    their two products correctly. *)
Definition good_draw (mul : Q → Q → Q) (d : Q * Q * Q) : Prop :=
  Telemetry.is_random d.1.1 ∧ Telemetry.is_random d.1.2
  ∧ Telemetry.is_random d.2
  ∧ Telemetry.nearest (d.1.1 * 3) (mul d.1.1 3%Q)
  ∧ Telemetry.nearest (d.1.2 * 100) (mul d.1.2 100%Q).

(** No error on display is stale: every entry of [validationErrors] that
    holds a message holds the one the current record earns under that
    key. *)
Definition errors_fresh (m : Machine) : Prop :=
  ∀ k v, validationErrors (formState (comp m)) !! k = Some v →
    truthy v = true → earned_error (formData (comp m)) k = Some v.

(** Every request handed to the transport carried a record that passed
    [validateForm], the session identity of the component and the fixed
    form version. *)
Definition sent_valid (m : Machine) : Prop :=
  ∀ p, p ∈ sent m →
    validateForm (form_data p) = Some ∅
    ∧ session_id p = sessionId (comp m)
    ∧ form_version p = lit "1.0.0".

(** The failure message is only present when the form is neither
    submitting nor submitted, the backend identifiers only when it is
    submitted, and a start time whenever it is submitting. *)
Definition flags_coherent (m : Machine) : Prop :=
  let fs := formState (comp m) in
  (error fs ≠ VNull → isSubmitting fs = false ∧ isSubmitted fs = false)
  ∧ (isSubmitted fs = false → eventId fs = VNull ∧ correlationId fs = VNull)
  ∧ (isSubmitting fs = true → submissionStartTime fs ≠ None).

(** * Properties *)

(** ** The matcher decides the language of a pattern *)
Module RegexFacts.
Import Regex.

Lemma nullable_Matches r : nullable r = true ↔ Matches r [].
Proof.
  split.
  - induction r; simpl; intros H; try discriminate.
    + constructor.
    + apply andb_true_iff in H as [H1 H2].
      apply (MSeq _ _ [] []); auto.
    + apply orb_true_iff in H as [H|H]; [apply MAltL | apply MAltR]; auto.
    + constructor.
  - intros H. remember [] as s eqn:Hs.
    induction H; simpl; subst; try discriminate; auto.
    + apply app_eq_nil in Hs as [-> ->].
      rewrite IHMatches1, IHMatches2; auto.
    + rewrite IHMatches; auto.
    + rewrite IHMatches; auto. apply orb_true_r.
Qed.

Lemma deriv_Matches c r s : Matches (deriv c r) s ↔ Matches r (c :: s).
Proof.
  split.
  - revert s. induction r; simpl; intros s H.
    + inversion H.
    + inversion H.
    + destruct (p c) eqn:Hp; inversion H; subst. by constructor.
    + destruct (nullable r1) eqn:Hn.
      * inversion H as [| | |? ? ? HL|? ? ? HR| |]; subst.
        -- inversion HL; subst.
           apply (MSeq _ _ (c :: s1) s2); auto.
        -- apply (MSeq _ _ [] (c :: s)); [by apply nullable_Matches | auto].
      * inversion H; subst.
        apply (MSeq _ _ (c :: s1) s2); auto.
    + inversion H; subst; [apply MAltL | apply MAltR]; auto.
    + inversion H; subst.
      apply (MStarApp _ (c :: s1) s2); auto.
  - intros H. remember (c :: s) as cs eqn:Hcs. revert s Hcs.
    induction H; intros s' Hcs; simpl; try discriminate.
    + injection Hcs as -> <-. rewrite H. constructor.
    + destruct s1 as [|c1 s1]; simpl in Hcs.
      * subst s2. apply nullable_Matches in H. rewrite H.
        apply MAltR. by apply IHMatches2.
      * injection Hcs as -> <-.
        destruct (nullable r1);
          [apply MAltL|]; constructor; auto.
    + apply MAltL; auto.
    + apply MAltR; auto.
    + destruct s1 as [|c1 s1]; simpl in Hcs.
      * by apply IHMatches2.
      * injection Hcs as -> <-. constructor; auto.
Qed.

Lemma test_Matches r s : test r s = true ↔ Matches r s.
Proof.
  revert r. induction s as [|c s IH]; intros r; simpl.
  - apply nullable_Matches.
  - rewrite IH. apply deriv_Matches.
Qed.

Lemma Matches_Class p s : Matches (Class p) s ↔ ∃ c, s = [c] ∧ p c = true.
Proof.
  split.
  - inversion 1; subst; eauto.
  - intros (c & -> & Hc). by constructor.
Qed.

Lemma Matches_Upto_Class p n s :
  Matches (Upto n (Class p)) s ↔ forallb p s = true ∧ (length s ≤ n)%nat.
Proof.
  revert s. induction n as [|n IH]; intros s; simpl.
  - split.
    + inversion 1; subst; simpl; auto.
    + intros [_ Hlen]. destruct s; simpl in Hlen; [constructor | lia].
  - split.
    + inversion 1 as [| | |? ? ? HL|? ? ? HR| |]; subst.
      * inversion HL; subst; simpl; split; [done | lia].
      * inversion HR as [| |? ? ? ? H1 H2| | | |]; subst.
        apply Matches_Class in H1 as (c & -> & Hc).
        apply IH in H2 as [Hall Hlen]. simpl. rewrite Hc, Hall.
        split; [done | lia].
    + intros [Hall Hlen]. destruct s as [|c s]; [apply MAltL; constructor|].
      simpl in Hall, Hlen. apply andb_true_iff in Hall as [Hc Hall].
      apply MAltR. apply (MSeq _ _ [c] s); [by constructor|].
      apply IH. split; [done | lia].
Qed.

End RegexFacts.

(** ** Validation engine: the phone rule *)

Lemma phoneRegex_test t : Regex.test phoneRegex t = intl_digits t.
Proof.
  apply eq_true_iff_eq. rewrite RegexFacts.test_Matches. unfold phoneRegex.
  split.
  - inversion 1 as [| |? ? s1 s23 H1 H23| | | |]; subst.
    inversion H23 as [| |? ? s2 s3 H2 H3| | | |]; subst.
    apply RegexFacts.Matches_Class in H2 as (d & -> & Hd).
    apply (proj1 (RegexFacts.Matches_Upto_Class is_digit 15 _)) in H3
      as [Hall Hlen].
    assert (Hd43 : (d =? 43)%N = false).
    { unfold is_1_9 in Hd. apply andb_true_iff in Hd as [Hd _].
      apply N.leb_le in Hd. apply N.eqb_neq. lia. }
    inversion H1 as [| | |? ? ? HL|? ? ? HR| |]; subst.
    + apply RegexFacts.Matches_Class in HL as (c & -> & Hc).
      unfold is_char in Hc. unfold intl_digits. simpl. rewrite Hc, Hd, Hall.
      simpl. apply Nat.leb_le. lia.
    + inversion HR; subst. unfold intl_digits. simpl.
      rewrite Hd43, Hd, Hall. simpl. apply Nat.leb_le. lia.
  - unfold intl_digits. intros H.
    assert (Hbody : ∀ u, match u with
                         | d :: ds => is_1_9 d && forallb is_digit ds
                                      && (length ds <=? 15)%nat
                         | [] => false
                         end = true →
              Regex.Matches
                (Regex.Seq (Regex.Class is_1_9)
                   (Regex.Upto 15 (Regex.Class is_digit))) u).
    { intros [|d ds] Hu; [discriminate|].
      apply andb_true_iff in Hu as [Hu Hlen].
      apply andb_true_iff in Hu as [Hd Hall].
      apply (Regex.MSeq _ _ [d] ds); [by constructor|].
      apply (proj2 (RegexFacts.Matches_Upto_Class is_digit 15 _)).
      split; [done|].
      by apply Nat.leb_le. }
    destruct t as [|c u]; [discriminate|].
    destruct (c =? 43)%N eqn:Hc.
    + apply (Regex.MSeq _ _ [c] u); [|by apply Hbody].
      apply Regex.MAltL. by constructor.
    + apply (Regex.MSeq _ _ [] (c :: u)); [|by apply Hbody].
      apply Regex.MAltR. constructor.
Qed.

Lemma intl_digits_digits_1_16 t : intl_digits t = true → digits_1_16 t = true.
Proof.
  unfold intl_digits, digits_1_16.
  destruct (match t with
            | c :: u => if (c =? 43)%N then u else t
            | [] => t
            end) as [|d ds]; [discriminate|].
  intros H. apply andb_true_iff in H as [H Hlen].
  apply andb_true_iff in H as [Hd Hall]. apply Nat.leb_le in Hlen.
  assert (is_digit d = true) as Hd'.
  { unfold is_1_9 in Hd. unfold is_digit.
    apply andb_true_iff in Hd as [H1 H2]. apply N.leb_le in H1.
    rewrite H2, andb_true_r. apply N.leb_le. lia. }
  simpl. rewrite Hd', Hall. simpl. apply Nat.leb_le. lia.
Qed.

(** C7 (amended): on the phone field [validateField] returns no error for
    the empty value; for any other value it returns no error exactly when
    the value, with white space, hyphens and parentheses removed, is an
    optional [+] followed by a digit from 1 to 9 and at most fifteen further
    digits, and otherwise the single entry keyed [phone]. Every accepted
    value is an optionally [+]-prefixed string of 1 to 16 digits. *)
Theorem validateField_phone_rule (s : jsstring) :
  validateField "phone" (VStr s)
  = Some (match s with
          | [] => ∅
          | _ => if intl_digits (strip_phone s) then ∅
                 else {[ "phone" :=
                           VStr (lit "Please enter a valid phone number") ]}
          end)
  ∧ (validateField "phone" (VStr s) = Some ∅
     ↔ s = [] ∨ intl_digits (strip_phone s) = true)
  ∧ (intl_digits (strip_phone s) = true
     → digits_1_16 (strip_phone s) = true).
Proof.
  assert (Heq : validateField "phone" (VStr s)
    = Some (match s with
            | [] => ∅
            | _ => if intl_digits (strip_phone s) then ∅
                   else {[ "phone" :=
                             VStr (lit "Please enter a valid phone number") ]}
            end)).
  { destruct s as [|c s]; [reflexivity|].
    unfold validateField. simpl String.eqb. cbv iota. simpl truthy.
    cbv iota. rewrite phoneRegex_test.
    destruct (intl_digits _); reflexivity. }
  split; [exact Heq|]. split; [|apply intl_digits_digits_1_16].
  rewrite Heq. destruct s as [|c s].
  - split; auto.
  - destruct (intl_digits (strip_phone (c :: s))) eqn:Hd.
    + split; auto.
    + split.
      * intros H. apply (inj Some) in H.
        by apply map_non_empty_singleton in H.
      * intros [H|H]; discriminate.
Qed.

(** C7 as stated fails: ["0"] is a one-digit string, yet the phone rule
    rejects it, because the pattern asks for a first digit from 1 to 9. *)
Lemma validateField_phone_leading_zero :
  lit "0" ≠ [] ∧ digits_1_16 (strip_phone (lit "0")) = true
  ∧ validateField "phone" (VStr (lit "0"))
    = Some {[ "phone" := VStr (lit "Please enter a valid phone number") ]}
  ∧ validateField "phone" (VStr (lit "0")) ≠ Some ∅.
Proof.
  assert (Hrej : validateField "phone" (VStr (lit "0"))
    = Some {[ "phone" := VStr (lit "Please enter a valid phone number") ]})
    by (vm_compute; reflexivity).
  split; [discriminate|]. split; [reflexivity|]. split; [exact Hrej|].
  rewrite Hrej. intros H. apply (inj Some) in H.
  by apply map_non_empty_singleton in H.
Qed.

(** ** Validation engine: the length rules *)

(** C8: for [name] and [company] (bounds 2 and 100) and for [message]
    (bounds 10 and 2000), [validateField] returns a non-empty message under
    the field's key when the trimmed value is shorter than the minimum, and
    no error when the trimmed length lies within the bounds, inclusive. *)
Theorem validateField_length_rule (field : string) (lo hi : nat)
    (s : jsstring) :
  length_bounds field = Some (lo, hi) →
  ((length (trim s) < lo)%nat →
     ∃ msg, msg ≠ [] ∧
       validateField field (VStr s) = Some {[ field := VStr msg ]})
  ∧ ((lo ≤ length (trim s) ∧ length (trim s) ≤ hi)%nat →
     validateField field (VStr s) = Some ∅).
Proof.
  unfold length_bounds. intros Hb.
  destruct (String.eqb_spec field "name") as [->|_];
    [|destruct (String.eqb_spec field "company") as [->|_];
      [|destruct (String.eqb_spec field "message") as [->|_];
        [|discriminate]]];
    injection Hb as <- <-;
    unfold validateField; simpl String.eqb; cbv iota; simpl trim_of;
    simpl mbind; remember (trim s) as t eqn:Ht; clear Ht.
  all: split; intros Hlen.
  all: destruct t as [|c t]; simpl length in *; simpl negb; cbv iota;
    try lia; try (eexists; split; [|reflexivity]; discriminate).
  all: repeat match goal with
         | |- context [(?a <? ?b)%nat] => destruct (Nat.ltb_spec a b)
         end;
    try lia; try reflexivity;
    try (eexists; split; [|reflexivity]; discriminate).
Qed.

Lemma validateField_length_rule_witness :
  length_bounds "message" = Some (10, 2000)%nat
  ∧ (length (trim (lit "  too short ")) < 10)%nat
  ∧ (∃ msg, msg ≠ [] ∧
       validateField "message" (VStr (lit "  too short "))
       = Some {[ "message" := VStr msg ]})
  ∧ length_bounds "name" = Some (2, 100)%nat
  ∧ (2 ≤ length (trim (lit " Al ")) ∧ length (trim (lit " Al ")) ≤ 100)%nat
  ∧ validateField "name" (VStr (lit " Al ")) = Some ∅.
Proof.
  split; [reflexivity|]. split; [simpl; lia|]. split.
  - apply (proj1 (validateField_length_rule "message" 10 2000
                    (lit "  too short ") eq_refl)).
    simpl. lia.
  - split; [reflexivity|]. split; [simpl; lia|].
    apply (proj2 (validateField_length_rule "name" 2 100 (lit " Al ")
                    eq_refl)).
    simpl. lia.
Defined.

(** ** Validation engine: the whole record *)

Section ValidateForm.
Variable fd : FormData.

(** No field of a form record is handed to a string method with a value
    that is not a string, so [validateField] does not throw on it. *)
Lemma validateField_get_field key :
  key ∈ formData_keys → is_Some (validateField key (get_field fd key)).
Proof.
  unfold formData_keys. intros H.
  repeat (apply elem_of_cons in H as [->|H]);
    try (by apply elem_of_nil in H).
  all: unfold validateField, get_field; simpl String.eqb; cbv iota;
    simpl trim_of; simpl mbind; try (by eexists).
  destruct (truthy (VStr (phone fd))); by eexists.
Qed.

Lemma forEach_total keys acc :
  keys ⊆ formData_keys → is_Some (validateForm_forEach fd keys acc).
Proof.
  revert acc. induction keys as [|k keys IH]; intros acc Hsub; simpl.
  - by eexists.
  - assert (Hk : k ∈ formData_keys) by (apply Hsub; left).
    assert (Hks : keys ⊆ formData_keys)
      by (intros x Hx; apply Hsub; by right).
    destruct (negb (String.eqb k "phone")); [|by apply IH].
    destruct (validateField_get_field k Hk) as [fe ->]. simpl.
    by apply IH.
Qed.


(** When every field check other than the phone's comes back empty, the
    loop adds nothing. *)
Lemma forEach_clean keys acc :
  (∀ k, k ∈ keys → k ≠ "phone" →
     validateField k (get_field fd k) = Some ∅) →
  validateForm_forEach fd keys acc = Some acc.
Proof.
  revert acc. induction keys as [|k keys IH]; intros acc Hall; simpl.
  - done.
  - assert (Hks : ∀ k', k' ∈ keys → k' ≠ "phone" →
              validateField k' (get_field fd k') = Some ∅)
      by (intros k' Hk'; apply Hall; by right).
    destruct (String.eqb_spec k "phone") as [->|Hne]; simpl.
    + by apply IH.
    + rewrite (Hall k) by (done || left). simpl.
      rewrite (left_id_L ∅ (∪)). by apply IH.
Qed.

Lemma validateForm_total : is_Some (validateForm fd).
Proof.
  unfold validateForm.
  destruct (forEach_total formData_keys ∅) as [e ->]; [done|].
  by eexists.
Qed.

End ValidateForm.

Lemma get_field_set_phone fd p k :
  k ≠ "phone" → get_field (set_field fd "phone" (VStr p)) k = get_field fd k.
Proof.
  intros Hne. destruct fd. unfold get_field, set_field. simpl.
  destruct (String.eqb_spec k "phone"); [done|]. reflexivity.
Qed.

Lemma forEach_set_phone fd p keys acc :
  validateForm_forEach (set_field fd "phone" (VStr p)) keys acc
  = validateForm_forEach fd keys acc.
Proof.
  revert acc. induction keys as [|k keys IH]; intros acc; simpl; [done|].
  destruct (String.eqb_spec k "phone") as [->|Hne]; simpl; [apply IH|].
  rewrite get_field_set_phone by done.
  destruct (validateField k (get_field fd k)); simpl; [apply IH | done].
Qed.

(** C9: a record whose [consent_data_processing] is [false] gets an error
    set with a [consent_data_processing] entry, whatever its other fields
    hold. *)
Theorem validateForm_consent_required (fd : FormData) :
  consent_data_processing fd = false →
  ∃ errors, validateForm fd = Some errors
    ∧ errors !! "consent_data_processing"
      = Some (VStr (lit "Data processing consent is required")).
Proof.
  intros Hc. unfold validateForm.
  destruct (forEach_total fd formData_keys ∅) as [e ->]; [done|].
  simpl. rewrite Hc. simpl. eexists. split; [reflexivity|].
  apply lookup_insert_eq.
Qed.

Lemma validateForm_consent_required_witness :
  consent_data_processing
    (set_field annLee "consent_data_processing" (VBool false)) = false
  ∧ ∃ errors,
      validateForm (set_field annLee "consent_data_processing" (VBool false))
      = Some errors
      ∧ errors !! "consent_data_processing"
        = Some (VStr (lit "Data processing consent is required")).
Proof.
  split; [reflexivity|].
  apply (validateForm_consent_required
           (set_field annLee "consent_data_processing" (VBool false))).
  reflexivity.
Defined.

(** ** Submission: validation before the request *)


Lemma handleSubmit_start_valid c now0 now1 :
  validateForm (formData c) = Some ∅ →
  handleSubmit_start now0 now1 c
  = (mkComponent (formData c)
       (mkFormState true (isSubmitted (formState c)) VNull
          (validationErrors (formState c)) (Some now0)
          (eventId (formState c)) (correlationId (formState c)))
       (sessionId c), Some (payload_of c now0 now1)).
Proof.
  intros Hv. unfold handleSubmit_start. rewrite Hv.
  rewrite map_size_empty. reflexivity.
Qed.

(** No path of [handleSubmit_start] writes to the form record or to the
    session identity. *)
Lemma handleSubmit_start_formData c now0 now1 :
  formData (handleSubmit_start now0 now1 c).1 = formData c
  ∧ sessionId (handleSubmit_start now0 now1 c).1 = sessionId c.
Proof.
  unfold handleSubmit_start.
  destruct (validateForm (formData c)) as [e|]; [|done].
  by destruct (0 <? size e)%nat.
Qed.




(** ** Submission: the phone field is not validated *)

(** C6: [validateForm] does not look at the phone field: changing it never
    changes the result. So a record whose other fields each pass their own
    check and whose [consent_data_processing] is [true] gets the empty
    error set whatever its phone value is, and the submit handler then
    builds a request whose [form_data] is that record, phone included. *)
Theorem validateForm_ignores_phone (fd : FormData) :
  (∀ key, key ∈ formData_keys → key ≠ "phone" →
     validateField key (get_field fd key) = Some ∅) →
  consent_data_processing fd = true →
  validateForm fd = Some ∅
  ∧ (∀ p, validateForm (set_field fd "phone" (VStr p)) = validateForm fd)
  ∧ ∀ c now0 now1, formData c = fd →
      ∃ payload,
        (handleSubmit_start now0 now1 c).2 = Some payload
        ∧ form_data payload = fd
        ∧ phone (form_data payload) = phone fd.
Proof.
  intros Hfields Hconsent.
  assert (Hv : validateForm fd = Some ∅).
  { unfold validateForm. rewrite (forEach_clean fd _ _ Hfields). simpl.
    by rewrite Hconsent. }
  split; [exact Hv|]. split.
  - intros p. unfold validateForm.
    rewrite forEach_set_phone. by destruct fd.
  - intros c now0 now1 <-. rewrite (handleSubmit_start_valid _ _ _ Hv).
    eexists. split; [reflexivity|]. done.
Qed.

Lemma validateForm_ignores_phone_witness :
  validateField "phone" (get_field badPhone "phone")
  = Some {[ "phone" := VStr (lit "Please enter a valid phone number") ]}
  ∧ consent_data_processing badPhone = true
  ∧ validateForm badPhone = Some ∅
  ∧ (∀ p, validateForm (set_field badPhone "phone" (VStr p))
          = validateForm badPhone)
  ∧ ∀ c now0 now1, formData c = badPhone →
      ∃ payload,
        (handleSubmit_start now0 now1 c).2 = Some payload
        ∧ form_data payload = badPhone
        ∧ phone (form_data payload) = phone badPhone.
Proof.
  split; [vm_compute; reflexivity|]. split; [reflexivity|].
  apply (validateForm_ignores_phone badPhone); [|reflexivity].
  intros key Hkey Hne. unfold formData_keys in Hkey.
  repeat (apply elem_of_cons in Hkey as [->|Hkey]);
    try (by apply elem_of_nil in Hkey); try done.
  all: vm_compute; reflexivity.
Defined.

(** ** Submission: the outcomes of an accepted attempt *)

Lemma dispatch_Submit_valid m now0 now1 :
  isSubmitted (formState (comp m)) = false →
  isSubmitting (formState (comp m)) = false →
  validateForm (formData (comp m)) = Some ∅ →
  dispatch (Submit now0 now1) m
  = mkMachine
      (mkComponent (formData (comp m))
         (mkFormState true false VNull
            (validationErrors (formState (comp m))) (Some now0)
            (eventId (formState (comp m)))
            (correlationId (formState (comp m))))
         (sessionId (comp m)))
      (inflight m ++ [payload_of (comp m) now0 now1])
      (sent m ++ [payload_of (comp m) now0 now1]).
Proof.
  intros Hsub Hing Hv. unfold dispatch, form_rendered, controls_disabled.
  rewrite Hsub, Hing. simpl andb. cbv iota.
  rewrite (handleSubmit_start_valid _ _ _ Hv). by rewrite Hsub.
Qed.

(** C2 (amended): an accepted attempt (rendered, enabled form, idle
    transport) on a record that passes [validateForm] puts the machine in
    Submitting with exactly one request sent; when that request is answered
    with a status from 200 to 299 and a body holding [event_id] and
    [correlation_id], the machine ends in Submitted with exactly those two
    values and with [error] cleared to [null]. The validation error set is
    not written on this path: it is what it was before the attempt. *)
Theorem submit_acknowledged (m : Machine) (now0 now1 : Z) (status : N)
    (result : gmap string jsval) (eid cid : jsval) :
  isSubmitted (formState (comp m)) = false →
  isSubmitting (formState (comp m)) = false →
  inflight m = [] →
  validateForm (formData (comp m)) = Some ∅ →
  ok status = true →
  result !! "event_id" = Some eid →
  result !! "correlation_id" = Some cid →
  let m1 := dispatch (Submit now0 now1) m in
  let m2 := dispatch (Settle 0 (Responded status result)) m1 in
  submissionState (formState (comp m1)) = Submitting
  ∧ sent m1 = sent m ++ [payload_of (comp m) now0 now1]
  ∧ submissionState (formState (comp m2)) = Submitted eid cid
  ∧ error (formState (comp m2)) = VNull
  ∧ validationErrors (formState (comp m2))
    = validationErrors (formState (comp m))
  ∧ sent m2 = sent m1
  ∧ inflight m2 = [].
Proof.
  intros Hsub Hing Hidle Hv Hok Heid Hcid m1 m2. subst m2 m1.
  rewrite (dispatch_Submit_valid _ _ _ Hsub Hing Hv), Hidle.
  unfold dispatch, submissionState, handleSubmit_settle, prop. simpl.
  rewrite Hok, Heid, Hcid. simpl. done.
Qed.

Lemma submit_acknowledged_witness :
  isSubmitted (formState (comp (filled annLee))) = false
  ∧ isSubmitting (formState (comp (filled annLee))) = false
  ∧ inflight (filled annLee) = []
  ∧ validateForm (formData (comp (filled annLee))) = Some ∅
  ∧ ok 200 = true
  ∧ let m1 := dispatch (Submit 1000 1001) (filled annLee) in
    let m2 := dispatch (Settle 0 (Responded 200 ack1)) m1 in
    submissionState (formState (comp m1)) = Submitting
    ∧ sent m1
      = sent (filled annLee) ++ [payload_of (comp (filled annLee)) 1000 1001]
    ∧ submissionState (formState (comp m2))
      = Submitted (VStr (lit "ev-1")) (VStr (lit "corr-1"))
    ∧ error (formState (comp m2)) = VNull
    ∧ validationErrors (formState (comp m2))
      = validationErrors (formState (comp (filled annLee)))
    ∧ sent m2 = sent m1
    ∧ inflight m2 = [].
Proof.
  split; [reflexivity|]. split; [reflexivity|]. split; [reflexivity|].
  split; [vm_compute; reflexivity|]. split; [reflexivity|].
  apply (submit_acknowledged (filled annLee) 1000 1001 200 ack1
           (VStr (lit "ev-1")) (VStr (lit "corr-1")));
    try reflexivity; vm_compute; reflexivity.
Defined.

(** C2 as stated fails: the attempt below passes validation and is
    acknowledged with status 200, and the machine ends in Submitted, yet the
    error set still holds the phone error recorded on blur. *)
Lemma acknowledged_keeps_phone_error :
  let m2 := submit_against (Responded 200 ack1) 1000 1001 phoneBlurred in
  validateForm (formData (comp phoneBlurred)) = Some ∅
  ∧ submissionState (formState (comp phoneBlurred)) = Idle
  ∧ length (sent m2) = 1%nat
  ∧ submissionState (formState (comp m2))
    = Submitted (VStr (lit "ev-1")) (VStr (lit "corr-1"))
  ∧ validationErrors (formState (comp m2))
    = {[ "phone" := VStr (lit "Please enter a valid phone number") ]}
  ∧ validationErrors (formState (comp m2)) ≠ ∅.
Proof.
  assert (E : validationErrors
                (formState (comp (submit_against (Responded 200 ack1)
                                    1000 1001 phoneBlurred)))
              = {[ "phone" :=
                     VStr (lit "Please enter a valid phone number") ]})
    by (vm_compute; reflexivity).
  cbv zeta. rewrite E.
  split; [vm_compute; reflexivity|]. split; [reflexivity|].
  split; [reflexivity|]. split; [vm_compute; reflexivity|].
  split; [reflexivity|]. apply map_non_empty_singleton.
Qed.

(** C3 (amended): an accepted attempt on a record that passes
    [validateForm] ends in Failed when the answer has a status outside 200
    to 299 and a body that is a JSON object, or when no parsed answer
    arrives. The message carried is the [error] string of the body object
    verbatim when that string is not empty, the fixed text
    [Failed to submit form] when the [error] of the body object is the
    empty string (or is missing, [null] or [false]), and the message of the
    thrown error when [fetch] or [response.json()] rejects. The form record
    is untouched; a following submit attempt is accepted, runs the same
    handler, and (the record still passing [validateForm]) clears the
    message, enters Submitting and sends one more request. *)
Theorem submit_failed (m : Machine) (now0 now1 : Z) (o : Outcome)
    (msg : jsstring) :
  isSubmitted (formState (comp m)) = false →
  isSubmitting (formState (comp m)) = false →
  inflight m = [] →
  validateForm (formData (comp m)) = Some ∅ →
  (∃ status result, o = Responded status result ∧ ok status = false
     ∧ (result !! "error" = Some (VStr msg) ∧ msg ≠ []
        ∨ truthy (prop result "error") = false
          ∧ msg = lit "Failed to submit form"))
  ∨ o = FetchRejected msg
  ∨ (∃ status, o = JsonRejected status msg) →
  let m1 := dispatch (Submit now0 now1) m in
  let m2 := dispatch (Settle 0 o) m1 in
  submissionState (formState (comp m1)) = Submitting
  ∧ submissionState (formState (comp m2)) = Failed (VStr msg)
  ∧ sent m2 = sent m ++ [payload_of (comp m) now0 now1]
  ∧ inflight m2 = []
  ∧ formData (comp m2) = formData (comp m)
  ∧ ∀ now2 now3,
      let m3 := dispatch (Submit now2 now3) m2 in
      comp m3 = (handleSubmit_start now2 now3 (comp m2)).1
      ∧ submissionState (formState (comp m3)) = Submitting
      ∧ error (formState (comp m3)) = VNull
      ∧ sent m3 = sent m2 ++ [payload_of (comp m2) now2 now3]
      ∧ inflight m3 = [payload_of (comp m2) now2 now3].
Proof.
  intros Hsub Hing Hidle Hv Ho m1 m2.
  assert (Hm1 : m1 = dispatch (Submit now0 now1) m) by reflexivity.
  rewrite (dispatch_Submit_valid _ _ _ Hsub Hing Hv), Hidle in Hm1.
  assert (Hm2 : m2 = mkMachine
            (mkComponent (formData (comp m))
               (mkFormState false false (VStr msg)
                  (validationErrors (formState (comp m))) (Some now0)
                  (eventId (formState (comp m)))
                  (correlationId (formState (comp m))))
               (sessionId (comp m)))
            [] (sent m ++ [payload_of (comp m) now0 now1])).
  { subst m2. rewrite Hm1. unfold dispatch. simpl.
    destruct Ho as [(status & result & -> & Hok & Hmsg)|[->|[status ->]]];
      simpl; try reflexivity.
    rewrite Hok. unfold handleSubmit_catch, js_or. simpl.
    destruct Hmsg as [[Herr Hne]|[Hfalsy ->]].
    - unfold prop. rewrite Herr. simpl. by destruct msg.
    - by rewrite Hfalsy. }
  rewrite Hm1 at 1. split; [reflexivity|]. rewrite Hm2.
  split; [reflexivity|]. split; [reflexivity|]. split; [reflexivity|].
  split; [reflexivity|]. intros now2 now3 m3. subst m3.
  rewrite dispatch_Submit_valid by done.
  rewrite handleSubmit_start_valid by done. done.
Qed.

Lemma submit_failed_witness :
  isSubmitted (formState (comp (filled annLee))) = false
  ∧ isSubmitting (formState (comp (filled annLee))) = false
  ∧ inflight (filled annLee) = []
  ∧ validateForm (formData (comp (filled annLee))) = Some ∅
  ∧ ok 422 = false
  ∧ duplicate !! "error" = Some (VStr (lit "duplicate submission"))
  ∧ let m1 := dispatch (Submit 1000 1001) (filled annLee) in
    let m2 := dispatch (Settle 0 (Responded 422 duplicate)) m1 in
    submissionState (formState (comp m1)) = Submitting
    ∧ submissionState (formState (comp m2))
      = Failed (VStr (lit "duplicate submission"))
    ∧ sent m2
      = sent (filled annLee) ++ [payload_of (comp (filled annLee)) 1000 1001]
    ∧ inflight m2 = []
    ∧ formData (comp m2) = formData (comp (filled annLee))
    ∧ ∀ now2 now3,
        let m3 := dispatch (Submit now2 now3) m2 in
        comp m3 = (handleSubmit_start now2 now3 (comp m2)).1
        ∧ submissionState (formState (comp m3)) = Submitting
        ∧ error (formState (comp m3)) = VNull
        ∧ sent m3 = sent m2 ++ [payload_of (comp m2) now2 now3]
        ∧ inflight m3 = [payload_of (comp m2) now2 now3].
Proof.
  split; [reflexivity|]. split; [reflexivity|]. split; [reflexivity|].
  split; [vm_compute; reflexivity|]. split; [reflexivity|].
  split; [vm_compute; reflexivity|].
  apply (submit_failed (filled annLee) 1000 1001 (Responded 422 duplicate)
           (lit "duplicate submission"));
    [reflexivity | reflexivity | reflexivity | vm_compute; reflexivity |].
  left. exists 422%N, duplicate. split; [reflexivity|].
  split; [reflexivity|]. left. split; [vm_compute; reflexivity|].
  discriminate.
Defined.

(** C3 as stated fails in both of its clauses on the message. A 422 answer
    whose body holds the empty string as [error] ends in Failed with the
    fixed fallback text, not with the body's string. And after a transport
    failure the message is the text of the thrown error, not a generic one:
    a rejected [fetch] and a rejected [response.json()] with different
    texts end in Failed with those two different messages, neither being
    the fixed text of [handleSubmit]. *)
Lemma failure_messages_not_as_claimed :
  let failed o :=
    submissionState
      (formState (comp (submit_against o 1000 1001 (filled annLee)))) in
  validateForm (formData (comp (filled annLee))) = Some ∅
  ∧ failed (Responded 422 {[ "error" := VStr [] ]})
    = Failed (VStr (lit "Failed to submit form"))
  ∧ failed (Responded 422 {[ "error" := VStr [] ]}) ≠ Failed (VStr [])
  ∧ failed (FetchRejected (lit "Failed to fetch"))
    = Failed (VStr (lit "Failed to fetch"))
  ∧ failed (JsonRejected 502 (lit "Unexpected end of JSON input"))
    = Failed (VStr (lit "Unexpected end of JSON input"))
  ∧ failed (FetchRejected (lit "Failed to fetch"))
    ≠ failed (JsonRejected 502 (lit "Unexpected end of JSON input"))
  ∧ failed (FetchRejected (lit "Failed to fetch"))
    ≠ Failed (VStr (lit "Failed to submit form")).
Proof.
  cbv zeta.
  repeat split; try (vm_compute; reflexivity); vm_compute; discriminate.
Qed.

(** ** Reachable machines *)

Lemma run_cons e es m : run (e :: es) m = run es (dispatch e m).
Proof. reflexivity. Qed.

Lemma reachable_run es now rnd : reachable (run es (start now rnd)).
Proof.
  assert (H : ∀ m, reachable m → reachable (run es m)).
  { induction es as [|e es IH]; intros m Hm; [done|].
    rewrite run_cons. apply IH. by constructor. }
  apply H. constructor.
Qed.

Lemma consistent_start now rnd : consistent (start now rnd).
Proof. split; [reflexivity | done]. Qed.

Lemma consistent_dispatch e m : consistent m → consistent (dispatch e m).
Proof.
  intros [Hfly Hcard]. destruct m as [[fd fs sid] fly log].
  destruct fs as [ing ed err ve t0 eid cid].
  unfold consistent in *.
  cbn [comp formState isSubmitting isSubmitted inflight] in Hfly, Hcard.
  destruct e as [name value|name|now0 now1| |i o]; unfold dispatch;
    unfold form_rendered, controls_disabled;
    cbn [comp formState formData sessionId isSubmitting isSubmitted
         inflight sent].
  - destruct (negb ed && negb ing && change_site name value); [|done].
    unfold handleInputChange.
    cbn [comp formState formData sessionId validationErrors].
    by destruct (truthy (prop ve name)).
  - destruct (negb ed && negb ing && blur_site name); [|done].
    unfold handleBlur. cbn [comp formState formData sessionId].
    by destruct (validateField name (get_field fd name)).
  - destruct ed, ing; cbn [negb andb]; try done.
    unfold handleSubmit_start. cbn [formData formState].
    destruct (validateForm_total fd) as [e ->].
    destruct (0 <? size e)%nat; [done|].
    cbn [comp formState isSubmitting isSubmitted inflight].
    split; [by rewrite Hfly | done].
  - destruct ed; [|done]. split; [|done].
    cbn [comp formState isSubmitting isSubmitted inflight resetForm
         initialFormState].
    by rewrite Hcard in Hfly.
  - destruct (fly !! i) as [p|] eqn:Hp; [|done].
    assert (Hlen : length fly = 1%nat).
    { destruct ing; [done|]. by rewrite Hfly in Hp. }
    destruct fly as [|p0 [|p1 fly]]; try discriminate.
    destruct i as [|i]; [|discriminate].
    destruct o as [msg|status msg|status result]; try done.
    unfold handleSubmit_settle. by destruct (ok status).
Qed.

Lemma consistent_run es m : consistent m → consistent (run es m).
Proof.
  revert m. induction es as [|e es IH]; intros m Hm; [done|].
  rewrite run_cons. by apply IH, consistent_dispatch.
Qed.

(** No handler writes to the session identity. *)
Lemma sessionId_dispatch e m :
  sessionId (comp (dispatch e m)) = sessionId (comp m).
Proof.
  destruct e as [name value|name|now0 now1| |i o]; unfold dispatch.
  - by destruct (_ && _).
  - destruct (_ && _); [|done]. unfold handleBlur. simpl.
    by destruct (validateField _ _).
  - destruct (_ && _); [|done].
    pose proof (handleSubmit_start_formData (comp m) now0 now1) as [_ Hs].
    by destruct (handleSubmit_start now0 now1 (comp m)) as [c' [p|]].
  - by destruct (isSubmitted _).
  - by destruct (_ !! _).
Qed.

Lemma sessionId_run es m : sessionId (comp (run es m)) = sessionId (comp m).
Proof.
  revert m. induction es as [|e es IH]; intros m; [done|].
  by rewrite run_cons, IH, sessionId_dispatch.
Qed.

(** C4: in every machine a mounted form can reach, at most one request is
    in flight; while the machine is in Submitting there is exactly one, and
    a submit attempt changes nothing: no request is added to the log and no
    state is written (the submit button is disabled while
    [isSubmitting]). *)
Theorem no_reentrant_submit (es : list Event) (now : Z) (rnd : jsstring) :
  let m := run es (start now rnd) in
  (length (inflight m) ≤ 1)%nat
  ∧ (submissionState (formState (comp m)) = Submitting →
     length (inflight m) = 1%nat
     ∧ ∀ now0 now1, dispatch (Submit now0 now1) m = m).
Proof.
  intros m.
  destruct (consistent_run es _ (consistent_start now rnd)) as [Hfly Hcard].
  fold m in Hfly, Hcard. split.
  - destruct (isSubmitting (formState (comp m))); [lia|].
    rewrite Hfly. simpl. lia.
  - unfold submissionState.
    destruct (isSubmitted (formState (comp m))); [discriminate|].
    destruct (isSubmitting (formState (comp m))) eqn:Hing.
    + intros _. split; [done|]. intros now0 now1.
      unfold dispatch, controls_disabled. rewrite Hing.
      by rewrite andb_false_r.
    + by destruct (error (formState (comp m))).
Qed.

(** A reachable machine in Submitting, on which a second submit attempt
    leaves the single logged request alone. *)
Example second_submit_while_submitting :
  let m := dispatch (Submit 1000 1001) (filled annLee) in
  submissionState (formState (comp m)) = Submitting
  ∧ length (sent m) = 1%nat
  ∧ length (sent (dispatch (Submit 2000 2001) m)) = 1%nat.
Proof. vm_compute. done. Qed.

(** ** Reset and the session identity *)

(** C5 (amended): in every machine a mounted form can reach that shows the
    thank-you card, reset yields Idle with the form record and the form
    state at their initial values (every field empty or [false], no
    validation errors, no submission metadata). The session identity is not
    written by reset nor by any other event: after the reset it is the one
    before it, which is the one generated at mount. *)
Theorem reset_from_submitted (es : list Event) (now : Z) (rnd : jsstring) :
  let m := run es (start now rnd) in
  isSubmitted (formState (comp m)) = true →
  let m' := dispatch Reset m in
  submissionState (formState (comp m')) = Idle
  ∧ formData (comp m') = emptyFormData
  ∧ validationErrors (formState (comp m')) = ∅
  ∧ formState (comp m') = initialFormState
  ∧ sessionId (comp m') = sessionId (comp m)
  ∧ sessionId (comp m') = newSessionId now rnd.
Proof.
  intros m Hed m'.
  assert (Hsid : sessionId (comp m') = sessionId (comp m))
    by apply sessionId_dispatch.
  split; [|split; [|split; [|split; [|split; [exact Hsid|]]]]].
  5: { rewrite Hsid. unfold m. by rewrite sessionId_run. }
  all: unfold m', dispatch; by rewrite Hed.
Qed.

Lemma reset_from_submitted_witness :
  let es := fill annLee ++ [Submit 1000 1001; Settle 0 (Responded 200 ack1)] in
  let m := run es (start 1700000000000 (lit "k3j9x0q2m")) in
  isSubmitted (formState (comp m)) = true
  ∧ let m' := dispatch Reset m in
    submissionState (formState (comp m')) = Idle
    ∧ formData (comp m') = emptyFormData
    ∧ validationErrors (formState (comp m')) = ∅
    ∧ formState (comp m') = initialFormState
    ∧ sessionId (comp m') = sessionId (comp m)
    ∧ sessionId (comp m') = newSessionId 1700000000000 (lit "k3j9x0q2m").
Proof.
  split; [reflexivity|].
  apply (reset_from_submitted
           (fill annLee ++ [Submit 1000 1001; Settle 0 (Responded 200 ack1)])
           1700000000000 (lit "k3j9x0q2m")).
  reflexivity.
Defined.

(** C5 as stated fails: after scenario 1 the machine is in Submitted, and
    the session identity after reset is the one before it. *)
Lemma reset_keeps_sessionId :
  submissionState (formState (comp acknowledged))
  = Submitted (VStr (lit "ev-1")) (VStr (lit "corr-1"))
  ∧ submissionState (formState (comp (dispatch Reset acknowledged))) = Idle
  ∧ sessionId (comp (dispatch Reset acknowledged))
    = sessionId (comp acknowledged)
  ∧ ¬ (sessionId (comp (dispatch Reset acknowledged))
       ≠ sessionId (comp acknowledged)).
Proof.
  split; [vm_compute; reflexivity|]. split; [reflexivity|].
  split; [reflexivity|]. intros H. by apply H.
Qed.

(** ** Telemetry *)

Module TelemetryFacts.
Import Telemetry.

Lemma double_below_one r :
  is_double r → (r < 1)%Q → (r <= 1 - (1 # 9007199254740992))%Q.
Proof.
  intros (m & k & Hm & [[Hk Hr]|[Hk Hr]]) Hlt.
  - rewrite Hr in *. 
    assert (m * 2 ^ k < 1)%Z.
    { rewrite Zlt_Qlt. exact Hlt. }
    assert (inject_Z (m * 2 ^ k) <= 0)%Q.
    { change 0%Q with (inject_Z 0). rewrite <- Zle_Qle. lia. }
    lra.
  - assert (Hp : (0 < 2 ^ k)%Z) by (apply Z.pow_pos_nonneg; lia).
    set (p := (2 ^ k)%Z) in *.
    assert (Hpq : (0 < inject_Z p)%Q).
    { change 0%Q with (inject_Z 0). by rewrite <- Zlt_Qlt. }
    assert (Hmp : (m < p)%Z).
    { rewrite Zlt_Qlt, <- Hr.
      rewrite <- (Qmult_1_l (inject_Z p)) at 2.
      apply Qmult_lt_compat_r; done. }
    (* goal: r <= (2^53-1)/2^53 ; r = m / p *)
    assert (Hgoal : (m * 9007199254740992 ≤ 9007199254740991 * p)%Z).
    { change (2 ^ 53)%Z with 9007199254740992%Z in Hm.
      destruct (Z.le_gt_cases k 53) as [Hle|Hgt].
      - assert (p ≤ 2 ^ 53)%Z by (apply Z.pow_le_mono_r; lia).
        change (2 ^ 53)%Z with 9007199254740992%Z in *. lia.
      - assert (2 ^ 53 ≤ p)%Z by (apply Z.pow_le_mono_r; lia).
        change (2 ^ 53)%Z with 9007199254740992%Z in *. lia. }
    rewrite Zle_Qle, !inject_Z_mult in Hgoal.
    rewrite <- Hr in Hgoal.
    apply (Qmult_le_r _ _ (inject_Z p)); [done|].
    change (inject_Z 9007199254740992) with (9007199254740992 # 1) in Hgoal.
    change (inject_Z 9007199254740991) with (9007199254740991 # 1) in Hgoal.
    lra.
Qed.

Lemma is_double_0 : is_double 0.
Proof. exists 0%Z, 0%Z. split; [done|]. left. split; [lia|reflexivity]. Qed.

(** The numbers just below 3 and just below 100. *)
Lemma is_double_below_3 : is_double (3 - (1 # 2251799813685248)).
Proof.
  exists 6755399441055743%Z, 51%Z. split; [done|]. right.
  split; [lia|reflexivity].
Qed.

Lemma is_double_below_100 : is_double (100 - (1 # 70368744177664)).
Proof.
  exists 7036874417766399%Z, 46%Z. split; [done|]. right.
  split; [lia|reflexivity].
Qed.

(** A nearest number to an exact result between 0 and [c] stays below the
    integer [K] as soon as some number [top] below [K] is nearer to [c]
    than [K] is. *)
Lemma nearest_floor_range (x y c top : Q) (K : Z) :
  nearest x y → (0 <= x)%Q → (x <= c)%Q → is_double top →
  (top < inject_Z K)%Q → (c - top < inject_Z K - c)%Q →
  (0 ≤ Qfloor y ∧ Qfloor y ≤ K - 1)%Z.
Proof.
  intros [_ Hmin] Hx0 Hxc Htop HtopK Hnear.
  assert (Hy0 : (0 <= y)%Q).
  { destruct (Qlt_le_dec y 0) as [Hneg|]; [|done].
    pose proof (Hmin 0%Q is_double_0) as H0.
    pose proof (Qle_Qabs (x - y)) as Hl.
    assert (Hr : (Qabs (x - 0) <= x)%Q)
      by (apply Qabs_Qle_condition; split; lra).
    lra. }
  assert (HyK : (y < inject_Z K)%Q).
  { destruct (Qlt_le_dec y (inject_Z K)) as [|Hge]; [done|].
    pose proof (Hmin top Htop) as H0.
    pose proof (Qle_Qabs (- (x - y))) as Hl. rewrite Qabs_opp in Hl.
    destruct (Qlt_le_dec x top) as [Hlt|Hle].
    - assert (Hr : (Qabs (x - top) <= top - x)%Q)
        by (apply Qabs_Qle_condition; split; lra).
      lra.
    - assert (Hr : (Qabs (x - top) <= c - top)%Q)
        by (apply Qabs_Qle_condition; split; lra).
      lra. }
  split.
  - change 0%Z with (Qfloor 0). by apply Qfloor_resp_le.
  - pose proof (Qfloor_le y) as Hfl.
    assert (Hz : (inject_Z (Qfloor y) < inject_Z K)%Q)
      by (eapply Qle_lt_trans; eauto).
    rewrite <- Zlt_Qlt in Hz. lia.
Qed.

End TelemetryFacts.

(** C10: for any three results of [Math.random()] and any correctly
    rounded products, a tick adds 0, 1 or 2 to [eventsProcessed] (so the
    counter never decreases), sets [avgResponseTime] to an integer from 150
    to 249, and sets [systemHealth] to [healthy] or [degraded]; the next
    snapshot is a function of the previous counter and the three random
    results alone. *)
Theorem tick_invariant (mul : Q → Q → Q) (r1 r2 r3 : Q)
    (prev : Telemetry.Stats) :
  Telemetry.is_random r1 → Telemetry.is_random r2 →
  Telemetry.is_random r3 →
  Telemetry.nearest (r1 * 3) (mul r1 3%Q) →
  Telemetry.nearest (r2 * 100) (mul r2 100%Q) →
  let next := Telemetry.tick mul r1 r2 r3 prev in
  (Telemetry.eventsProcessed prev ≤ Telemetry.eventsProcessed next
   ∧ Telemetry.eventsProcessed next ≤ Telemetry.eventsProcessed prev + 2)%Z
  ∧ (150 ≤ Telemetry.avgResponseTime next
     ∧ Telemetry.avgResponseTime next ≤ 249)%Z
  ∧ (Telemetry.systemHealth next = "healthy"
     ∨ Telemetry.systemHealth next = "degraded")
  ∧ ∀ prev',
      Telemetry.eventsProcessed prev' = Telemetry.eventsProcessed prev →
      Telemetry.tick mul r1 r2 r3 prev' = next.
Proof.
  intros (Hd1 & H1lo & H1hi) (Hd2 & H2lo & H2hi) _ Hn1 Hn2 next.
  pose proof (TelemetryFacts.double_below_one _ Hd1 H1hi) as H1top.
  pose proof (TelemetryFacts.double_below_one _ Hd2 H2hi) as H2top.
  assert (Ha : (0 ≤ Qfloor (mul r1 3%Q) ∧ Qfloor (mul r1 3%Q) ≤ 3 - 1)%Z).
  { apply (TelemetryFacts.nearest_floor_range (r1 * 3) _
             (3 - (3 # 9007199254740992)) (3 - (1 # 2251799813685248)));
      [done | lra | lra | apply TelemetryFacts.is_double_below_3
       | reflexivity | reflexivity]. }
  assert (Hb : (0 ≤ Qfloor (mul r2 100%Q)
                ∧ Qfloor (mul r2 100%Q) ≤ 100 - 1)%Z).
  { apply (TelemetryFacts.nearest_floor_range (r2 * 100) _
             (100 - (100 # 9007199254740992))
             (100 - (1 # 70368744177664)));
      [done | lra | lra | apply TelemetryFacts.is_double_below_100
       | reflexivity | reflexivity]. }
  subst next. unfold Telemetry.tick.
  cbn [Telemetry.eventsProcessed Telemetry.avgResponseTime
       Telemetry.systemHealth].
  split; [lia|]. split; [lia|]. split.
  - destruct (Qlt_le_dec _ _); auto.
  - by intros prev' ->.
Qed.


Lemma tick_invariant_witness :
  Telemetry.is_random (1 # 2) ∧ Telemetry.is_random (1 # 16)
  ∧ Telemetry.nearest ((1 # 2) * 3) (Qmult (1 # 2) 3%Q)
  ∧ Telemetry.nearest ((1 # 2) * 100) (Qmult (1 # 2) 100%Q)
  ∧ Telemetry.tick Qmult (1 # 2) (1 # 2) (1 # 16) Telemetry.initialStats
    = Telemetry.mkStats 1 200 "degraded"
  ∧ let next :=
      Telemetry.tick Qmult (1 # 2) (1 # 2) (1 # 16) Telemetry.initialStats in
    (Telemetry.eventsProcessed Telemetry.initialStats
     ≤ Telemetry.eventsProcessed next
     ∧ Telemetry.eventsProcessed next
       ≤ Telemetry.eventsProcessed Telemetry.initialStats + 2)%Z
    ∧ (150 ≤ Telemetry.avgResponseTime next
       ∧ Telemetry.avgResponseTime next ≤ 249)%Z
    ∧ (Telemetry.systemHealth next = "healthy"
       ∨ Telemetry.systemHealth next = "degraded")
    ∧ ∀ prev',
        Telemetry.eventsProcessed prev'
        = Telemetry.eventsProcessed Telemetry.initialStats →
        Telemetry.tick Qmult (1 # 2) (1 # 2) (1 # 16) prev' = next.
Proof.
  assert (Hhalf : Telemetry.is_random (1 # 2)).
  { split; [|split; [discriminate | reflexivity]].
    exists 1%Z, 1%Z. split; [done|]. right. split; [lia | reflexivity]. }
  assert (Hsix : Telemetry.is_random (1 # 16)).
  { split; [|split; [discriminate | reflexivity]].
    exists 1%Z, 4%Z. split; [done|]. right. split; [lia | reflexivity]. }
  assert (Hexact : ∀ x, Telemetry.is_double x → Telemetry.nearest x x).
  { intros x Hx. split; [done|]. intros z _.
    setoid_replace (x - x)%Q with 0%Q using relation Qeq by ring.
    apply Qabs_nonneg. }
  assert (Hn1 : Telemetry.nearest ((1 # 2) * 3) (Qmult (1 # 2) 3%Q)).
  { apply Hexact. exists 3%Z, 1%Z. split; [done|]. right.
    split; [lia | reflexivity]. }
  assert (Hn2 : Telemetry.nearest ((1 # 2) * 100) (Qmult (1 # 2) 100%Q)).
  { apply Hexact. exists 50%Z, 0%Z. split; [done|]. left.
    split; [lia | reflexivity]. }
  split; [exact Hhalf|]. split; [exact Hsix|]. split; [exact Hn1|].
  split; [exact Hn2|]. split; [reflexivity|].
  exact (tick_invariant Qmult (1 # 2) (1 # 2) (1 # 16)
           Telemetry.initialStats Hhalf Hhalf Hsix Hn1 Hn2).
Defined.

(** * Further properties of the validation engine *)

Module RegexMore.
Import Regex.

Lemma Matches_Star_Class p s :
  Matches (Star (Class p)) s ↔ forallb p s = true.
Proof.
  split.
  - intros H. remember (Star (Class p)) as r eqn:Hr.
    induction H; try discriminate; [done|].
    injection Hr as ->.
    apply RegexFacts.Matches_Class in H as (c & -> & Hc).
    simpl. rewrite Hc. by apply IHMatches2.
  - induction s as [|c s IH]; simpl; intros H; [constructor|].
    apply andb_true_iff in H as [Hc Hs].
    apply (MStarApp _ [c] s); [by constructor | by apply IH].
Qed.

Lemma Matches_Plus_Class p s :
  Matches (Plus (Class p)) s ↔ s ≠ [] ∧ forallb p s = true.
Proof.
  unfold Plus. split.
  - inversion 1 as [| |? ? s1 s2 H1 H2| | | |]; subst.
    apply RegexFacts.Matches_Class in H1 as (c & -> & Hc).
    apply Matches_Star_Class in H2. simpl. by rewrite Hc, H2.
  - intros [Hne H]. destruct s as [|c s]; [done|]. simpl in H.
    apply andb_true_iff in H as [Hc Hs].
    apply (MSeq _ _ [c] s); [by constructor | by apply Matches_Star_Class].
Qed.

End RegexMore.

(** What [emailRegex] accepts: something, an [@], something, a dot,
    something, where no part holds white space or an [@]. *)
Lemma emailRegex_test s :
  Regex.test emailRegex s = true ↔
  ∃ a b c, s = a ++ 64%N :: b ++ 46%N :: c
    ∧ a ≠ [] ∧ b ≠ [] ∧ c ≠ []
    ∧ forallb not_space_at a = true ∧ forallb not_space_at b = true
    ∧ forallb not_space_at c = true.
Proof.
  rewrite RegexFacts.test_Matches. unfold emailRegex. split.
  - inversion 1 as [| |? ? a r1 Ha Hr1| | | |]; subst.
    inversion Hr1 as [| |? ? at_ r2 Hat Hr2| | | |]; subst.
    inversion Hr2 as [| |? ? b r3 Hb Hr3| | | |]; subst.
    inversion Hr3 as [| |? ? dot c Hdot Hc| | | |]; subst.
    apply RegexFacts.Matches_Class in Hat as (x & -> & Hx).
    apply RegexFacts.Matches_Class in Hdot as (y & -> & Hy).
    unfold is_char in Hx, Hy. apply N.eqb_eq in Hx, Hy. subst x y.
    apply (proj1 (RegexMore.Matches_Plus_Class _ _)) in Ha as [Ha1 Ha2].
    apply (proj1 (RegexMore.Matches_Plus_Class _ _)) in Hb as [Hb1 Hb2].
    apply (proj1 (RegexMore.Matches_Plus_Class _ _)) in Hc as [Hc1 Hc2].
    exists a, b, c. simpl. done.
  - intros (a & b & c & -> & Ha & Hb & Hc & Ha' & Hb' & Hc').
    apply (Regex.MSeq _ _ a (64%N :: b ++ 46%N :: c));
      [by apply (proj2 (RegexMore.Matches_Plus_Class _ _))|].
    apply (Regex.MSeq _ _ [64%N] (b ++ 46%N :: c)); [by constructor|].
    apply (Regex.MSeq _ _ b (46%N :: c));
      [by apply (proj2 (RegexMore.Matches_Plus_Class _ _))|].
    apply (Regex.MSeq _ _ [46%N] c); [by constructor|].
    by apply (proj2 (RegexMore.Matches_Plus_Class _ _)).
Qed.

(** ** Trimming *)

Lemma trimStart_nil_iff s : trimStart s = [] ↔ forallb is_space s = true.
Proof.
  induction s as [|c s IH]; simpl; [done|].
  destruct (is_space c); simpl; [done|]. split; discriminate.
Qed.

Lemma trimStart_spaces p s :
  forallb is_space p = true → trimStart (p ++ s) = trimStart s.
Proof.
  induction p as [|c p IH]; simpl; [done|]. intros H.
  apply andb_true_iff in H as [Hc Hp]. rewrite Hc. by apply IH.
Qed.

(** [trimStart] returns either nothing or a string that starts with a
    character that is not white space. *)
Lemma trimStart_head s :
  trimStart s = [] ∨ ∃ c t, trimStart s = c :: t ∧ is_space c = false.
Proof.
  induction s as [|c s IH]; simpl; [by left|].
  destruct (is_space c) eqn:Hc; [done|]. right. by exists c, s.
Qed.

Lemma forallb_rev {A} (f : A → bool) (l : list A) :
  forallb f (rev l) = forallb f l.
Proof.
  induction l as [|x l IH]; simpl; [done|].
  rewrite forallb_app, IH. simpl. rewrite andb_true_r. apply andb_comm.
Qed.

Lemma trim_nil_iff s : trim s = [] ↔ forallb is_space s = true.
Proof.
  unfold trim. rewrite <- trimStart_nil_iff. split.
  - intros H. apply (f_equal (@rev N)) in H. rewrite rev_involutive in H.
    simpl in H. apply trimStart_nil_iff in H. rewrite forallb_rev in H.
    destruct (trimStart_head s) as [|(c & t & Ht & Hc)]; [done|].
    rewrite Ht in H. simpl in H. by rewrite Hc in H.
  - by intros ->.
Qed.

Lemma trim_padding p1 s p2 :
  forallb is_space p1 = true → forallb is_space p2 = true →
  trim (p1 ++ s ++ p2) = trim s.
Proof.
  intros H1 H2. unfold trim. rewrite trimStart_spaces by done.
  destruct (trimStart_head s) as [Hnil|(c & t & Ht & Hc)].
  - rewrite Hnil. apply trimStart_nil_iff in Hnil.
    assert (Hall : trimStart (s ++ p2) = []).
    { apply trimStart_nil_iff. rewrite forallb_app. by rewrite Hnil, H2. }
    by rewrite Hall.
  - assert (Happ : trimStart (s ++ p2) = trimStart s ++ p2).
    { clear H1. induction s as [|x s IH]; simpl in *; [discriminate|].
      destruct (is_space x); [by apply IH | done]. }
    rewrite Happ, rev_app_distr, trimStart_spaces; [done|].
    by rewrite forallb_rev.
Qed.

(** ** The email rule *)

Lemma not_space_at_is_space c : not_space_at c = true → is_space c = false.
Proof.
  unfold not_space_at. intros H. apply negb_true_iff in H.
  by apply orb_false_iff in H as [H _].
Qed.

Lemma forallb_not_space_at s :
  forallb not_space_at s = true → existsb is_space s = false.
Proof.
  induction s as [|c s IH]; simpl; [done|]. intros H.
  apply andb_true_iff in H as [Hc Hs].
  by rewrite (not_space_at_is_space _ Hc), IH.
Qed.

(** X1: [validateField] accepts an email value exactly when it reads as
    something, an [@], something, a dot, something, with none of the three
    parts empty or holding white space or an [@]. *)
Theorem validateField_email_rule (s : jsstring) :
  validateField "email" (VStr s) = Some ∅ ↔
  ∃ a b c, s = a ++ 64%N :: b ++ 46%N :: c
    ∧ a ≠ [] ∧ b ≠ [] ∧ c ≠ []
    ∧ forallb not_space_at a = true ∧ forallb not_space_at b = true
    ∧ forallb not_space_at c = true.
Proof.
  rewrite <- emailRegex_test. unfold validateField. simpl String.eqb.
  cbv iota. split.
  - destruct (negb (truthy (VStr (trim s)))).
    + intros H. apply (inj Some) in H.
      by apply insert_non_empty in H.
    + destruct (Regex.test emailRegex s); [done|]. simpl. intros H.
      apply (inj Some) in H. by apply insert_non_empty in H.
  - intros Ht. rewrite Ht. simpl.
    destruct (trim s) as [|c t] eqn:Htrim; [|done].
    apply trim_nil_iff in Htrim.
    apply emailRegex_test in Ht
      as (a & b & c & -> & Ha & _ & _ & Ha' & _).
    destruct a as [|x a]; [done|]. simpl in Htrim, Ha'.
    apply andb_true_iff in Ha' as [Hx _].
    by rewrite (not_space_at_is_space _ Hx) in Htrim.
Qed.

(** X2: a blank email value (empty or white space only) is reported as
    required; any other value holding a white-space character, even only in
    front or at the end, is reported as invalid: the value is matched as
    typed, not trimmed. *)
Theorem validateField_email_white_space (s : jsstring) :
  (forallb is_space s = true →
     validateField "email" (VStr s)
     = Some {[ "email" := VStr (lit "Email is required") ]})
  ∧ (forallb is_space s = false → existsb is_space s = true →
     validateField "email" (VStr s)
     = Some {[ "email" := VStr (lit "Please enter a valid email address") ]}).
Proof.
  unfold validateField. simpl String.eqb. cbv iota. split.
  - intros H. apply trim_nil_iff in H. by rewrite H.
  - intros Hnb Hsp.
    destruct (trim s) as [|c t] eqn:Htrim.
    { apply trim_nil_iff in Htrim. by rewrite Htrim in Hnb. }
    simpl. destruct (Regex.test emailRegex s) eqn:Ht; [|done].
    apply emailRegex_test in Ht
      as (a & b & c' & -> & _ & _ & _ & Ha & Hb & Hc).
    rewrite existsb_app in Hsp. simpl in Hsp. rewrite existsb_app in Hsp.
    simpl in Hsp.
    rewrite (forallb_not_space_at _ Ha), (forallb_not_space_at _ Hb),
      (forallb_not_space_at _ Hc) in Hsp.
    discriminate.
Qed.

Lemma validateField_email_white_space_witness :
  forallb is_space (lit "ann@ex.com ") = false
  ∧ existsb is_space (lit "ann@ex.com ") = true
  ∧ validateField "email" (VStr (lit "ann@ex.com "))
    = Some {[ "email" := VStr (lit "Please enter a valid email address") ]}.
Proof.
  split; [reflexivity|]. split; [reflexivity|].
  apply (proj2 (validateField_email_white_space (lit "ann@ex.com ")));
    reflexivity.
Defined.

(** ** The length rules, completed *)

Lemma validateField_length_ok (field : string) (lo hi : nat)
    (s : jsstring) :
  length_bounds field = Some (lo, hi) →
  validateField field (VStr s) = Some ∅
  ↔ (lo ≤ length (trim s) ∧ length (trim s) ≤ hi)%nat.
Proof.
  unfold length_bounds. intros Hb.
  destruct (String.eqb_spec field "name") as [->|_];
    [|destruct (String.eqb_spec field "company") as [->|_];
      [|destruct (String.eqb_spec field "message") as [->|_];
        [|discriminate]]];
    injection Hb as <- <-;
    unfold validateField; simpl String.eqb; cbv iota; simpl trim_of;
    simpl mbind; remember (trim s) as t eqn:Ht; clear Ht.
  all: destruct t as [|c t]; simpl length in *; simpl negb; cbv iota.
  all: repeat match goal with
         | |- context [(?a <? ?b)%nat] => destruct (Nat.ltb_spec a b)
         end.
  all: split; intros Hx; try lia; try reflexivity;
    try (apply (inj Some) in Hx; by apply insert_non_empty in Hx).
Qed.

(** X3: for [name], [company] and [message], [validateField] returns no
    error exactly when the trimmed length lies within the field's bounds,
    both ends included (a value of exactly the maximum length passes), and a
    longer value gets one non-empty message under the field's key. *)
Theorem validateField_length_exact (field : string) (lo hi : nat)
    (s : jsstring) :
  length_bounds field = Some (lo, hi) →
  (validateField field (VStr s) = Some ∅
   ↔ (lo ≤ length (trim s) ∧ length (trim s) ≤ hi)%nat)
  ∧ ((hi < length (trim s))%nat →
     ∃ msg, msg ≠ [] ∧
       validateField field (VStr s) = Some {[ field := VStr msg ]}).
Proof.
  unfold length_bounds. intros Hb.
  destruct (String.eqb_spec field "name") as [->|_];
    [|destruct (String.eqb_spec field "company") as [->|_];
      [|destruct (String.eqb_spec field "message") as [->|_];
        [|discriminate]]];
    injection Hb as <- <-;
    unfold validateField; simpl String.eqb; cbv iota; simpl trim_of;
    simpl mbind; remember (trim s) as t eqn:Ht; clear Ht.
  all: destruct t as [|c t]; simpl length in *; simpl negb; cbv iota.
  all: repeat match goal with
         | |- context [(?a <? ?b)%nat] => destruct (Nat.ltb_spec a b)
         end.
  all: split; [split|]; intros Hx; try lia; try reflexivity;
    try (eexists; split; [|reflexivity]; discriminate);
    try (apply (inj Some) in Hx; by apply insert_non_empty in Hx).
Qed.

Lemma validateField_length_exact_witness :
  length_bounds "name" = Some (2, 100)%nat
  ∧ length (trim (lit " Al ")) = 2%nat
  ∧ validateField "name" (VStr (lit " Al ")) = Some ∅.
Proof.
  split; [reflexivity|]. split; [reflexivity|].
  apply (proj1 (validateField_length_exact "name" 2 100 (lit " Al ")
                  eq_refl)).
  simpl. lia.
Defined.

(** X4: white space in front of or behind a [name], [company] or [message]
    value does not change what [validateField] returns for it. *)
Theorem validateField_ignores_padding (field : string)
    (p1 s p2 : jsstring) :
  field ∈ ["name"; "company"; "message"] →
  forallb is_space p1 = true → forallb is_space p2 = true →
  validateField field (VStr (p1 ++ s ++ p2)) = validateField field (VStr s).
Proof.
  intros Hf H1 H2.
  repeat (apply elem_of_cons in Hf as [->|Hf]);
    try (by apply elem_of_nil in Hf).
  all: unfold validateField; simpl String.eqb; cbv iota; simpl trim_of;
    by rewrite trim_padding.
Qed.

Lemma validateField_ignores_padding_witness :
  "company" ∈ ["name"; "company"; "message"]
  ∧ forallb is_space (lit "  ") = true ∧ forallb is_space (lit " ") = true
  ∧ validateField "company" (VStr (lit "  " ++ lit "A" ++ lit " "))
    = validateField "company" (VStr (lit "A")).
Proof.
  split; [by repeat constructor|]. split; [reflexivity|].
  split; [reflexivity|].
  apply (validateField_ignores_padding "company" (lit "  ") (lit "A")
           (lit " ")); [by repeat constructor | reflexivity | reflexivity].
Defined.

(** ** What a field check can report *)

Lemma validateField_cases name value fe :
  validateField name value = Some fe →
  fe = ∅ ∨ ∃ msg, msg ≠ [] ∧ fe = {[ name := VStr msg ]}.
Proof.
  unfold validateField.
  repeat match goal with
         | |- context [String.eqb name ?k] =>
             destruct (String.eqb_spec name k) as [->|?]
         end.
  all: destruct value as [| |b|s]; simpl; try discriminate.
  all: repeat match goal with
         | |- context [if ?b then _ else _] => destruct b
         end.
  all: intros [= <-]; try (by left);
    right; eexists; (split; [|reflexivity]); discriminate.
Qed.

Lemma validateField_other_key name value fe k :
  validateField name value = Some fe → k ≠ name → fe !! k = None.
Proof.
  intros H Hne. destruct (validateField_cases _ _ _ H) as [->|(msg & _ & ->)].
  - apply lookup_empty.
  - by apply lookup_singleton_ne.
Qed.

Lemma validateField_unknown_key name value :
  name ∉ ["name"; "email"; "company"; "phone"; "message";
          "preferred_contact_method"] →
  validateField name value = Some ∅.
Proof.
  intros Hout. unfold validateField.
  repeat match goal with
         | |- context [String.eqb name ?k] =>
             destruct (String.eqb_spec name k) as [->|?]
         end; try reflexivity.
  all: exfalso; apply Hout; by repeat constructor.
Qed.

(** X5: whatever the key and the value, a result of [validateField] is
    either empty or a single non-empty message stored under the key it was
    asked about; for a key outside the six it checks it is empty and the
    call does not throw. *)
Theorem validateField_reports_own_key (name : string) (value : jsval) :
  (∀ fe, validateField name value = Some fe →
     fe = ∅ ∨ ∃ msg, msg ≠ [] ∧ fe = {[ name := VStr msg ]})
  ∧ (name ∉ ["name"; "email"; "company"; "phone"; "message";
             "preferred_contact_method"] →
     validateField name value = Some ∅).
Proof.
  split; [apply validateField_cases | apply validateField_unknown_key].
Qed.

(** ** The phone rule on values made of formatting characters *)

Lemma strip_phone_fillers s :
  forallb is_phone_filler s = true → strip_phone s = [].
Proof.
  unfold strip_phone. induction s as [|c s IH]; simpl; [done|].
  intros H. apply andb_true_iff in H as [Hc Hs]. rewrite Hc. by apply IH.
Qed.

(** X6: the phone check looks at the value as typed before it strips it:
    the empty value passes, but a value made only of white space, hyphens
    and parentheses is reported as an invalid phone number. *)
Theorem validateField_phone_only_fillers (s : jsstring) :
  s ≠ [] → forallb is_phone_filler s = true →
  validateField "phone" (VStr s)
  = Some {[ "phone" := VStr (lit "Please enter a valid phone number") ]}.
Proof.
  intros Hne Hf. destruct s as [|c s]; [done|].
  unfold validateField. simpl String.eqb. cbv iota. simpl truthy. cbv iota.
  rewrite phoneRegex_test, (strip_phone_fillers _ Hf). reflexivity.
Qed.

Lemma validateField_phone_only_fillers_witness :
  lit "( ) -" ≠ [] ∧ forallb is_phone_filler (lit "( ) -") = true
  ∧ validateField "phone" (VStr []) = Some ∅
  ∧ validateField "phone" (VStr (lit "( ) -"))
    = Some {[ "phone" := VStr (lit "Please enter a valid phone number") ]}.
Proof.
  split; [discriminate|]. split; [reflexivity|]. split; [reflexivity|].
  apply (validateField_phone_only_fillers (lit "( ) -"));
    [discriminate | reflexivity].
Defined.

(** ** What [validateForm] reports *)

Lemma option_union_None_l {A} (x : option A) : None ∪ x = x.
Proof. by destruct x. Qed.

Lemma option_union_None_r {A} (x : option A) : x ∪ None = x.
Proof. by destruct x. Qed.

Lemma forEach_lookup fd keys acc e k :
  NoDup keys →
  validateForm_forEach fd keys acc = Some e →
  e !! k
  = (if bool_decide (k ∈ keys ∧ k ≠ "phone")
     then validateField k (get_field fd k) ≫= (λ fe, fe !! k)
     else None) ∪ acc !! k.
Proof.
  intros Hnd. revert acc. induction Hnd as [|j keys Hj Hnd IH]; intros acc.
  - cbn [validateForm_forEach]. intros [= ->].
    rewrite bool_decide_false; [by rewrite option_union_None_l|].
    intros [H _]. by apply elem_of_nil in H.
  - cbn [validateForm_forEach].
    destruct (String.eqb_spec j "phone") as [->|Hne]; cbn [negb].
    + intros H. rewrite (IH _ H).
      assert (Hiff : k ∈ keys ∧ k ≠ "phone"
                     ↔ k ∈ "phone" :: keys ∧ k ≠ "phone")
        by (rewrite elem_of_cons; tauto).
      by rewrite (bool_decide_ext _ _ Hiff).
    + destruct (validateField j (get_field fd j)) as [fe|] eqn:Hfe;
        [|discriminate].
      change (Some fe ≫= _) with
        (validateForm_forEach fd keys (fe ∪ acc)).
      intros H. rewrite (IH _ H), lookup_union.
      destruct (decide (k = j)) as [->|Hkj].
      * rewrite bool_decide_false by (by intros [? _]).
        rewrite bool_decide_true by (split; [left|done]).
        rewrite Hfe. cbn [mbind option_bind].
        by rewrite option_union_None_l.
      * rewrite (validateField_other_key _ _ _ _ Hfe Hkj),
          option_union_None_l.
        assert (Hiff : k ∈ keys ∧ k ≠ "phone"
                       ↔ k ∈ j :: keys ∧ k ≠ "phone")
          by (rewrite elem_of_cons; tauto).
        by rewrite (bool_decide_ext _ _ Hiff).
Qed.

Lemma formData_keys_NoDup : NoDup formData_keys.
Proof.
  unfold formData_keys.
  repeat (apply NoDup_cons_2;
          [intros H;
           repeat (apply elem_of_cons in H as [H|H]; [discriminate|]);
           by apply elem_of_nil in H|]).
  apply NoDup_nil_2.
Qed.

Lemma validateForm_lookup fd e k :
  validateForm fd = Some e →
  e !! k = if String.eqb k "phone" then None else earned_error fd k.
Proof.
  unfold validateForm.
  destruct (validateForm_forEach fd formData_keys ∅) as [e0|] eqn:He0;
    [|discriminate].
  simpl. intros [= <-].
  pose proof (forEach_lookup fd _ _ _ k formData_keys_NoDup He0) as Hk.
  rewrite lookup_empty, option_union_None_r in Hk.
  unfold earned_error.
  destruct (String.eqb_spec k "consent_data_processing") as [->|Hc].
  - simpl. destruct (consent_data_processing fd); simpl.
    + rewrite Hk. rewrite bool_decide_true; [done|].
      split; [by repeat constructor | done].
    + apply lookup_insert_eq.
  - assert (Hrest : (if negb (consent_data_processing fd)
                     then <["consent_data_processing" :=
                              VStr (lit "Data processing consent is required")]>
                            e0
                     else e0) !! k = e0 !! k).
    { destruct (negb _); [by rewrite lookup_insert_ne|done]. }
    rewrite Hrest, Hk.
    destruct (String.eqb_spec k "phone") as [->|Hp].
    + rewrite bool_decide_false; [done|]. by intros [_ ?].
    + destruct (decide (k ∈ formData_keys)) as [Hin|Hout].
      * by rewrite bool_decide_true.
      * rewrite bool_decide_false by (by intros [? _]).
        assert (Hv : validateField k (get_field fd k) = Some ∅).
        { apply validateField_unknown_key. intros Hin. apply Hout.
          unfold formData_keys.
          repeat (apply elem_of_cons in Hin as [->|Hin]);
            try (by apply elem_of_nil in Hin); by repeat constructor. }
        by rewrite Hv.
Qed.

(** X7: [validateForm] never throws on a form record; its result has no
    entry under [phone] or [consent_marketing], and under every other key it
    holds exactly the message the record earns there: the consent message
    when [consent_data_processing] is [false], and what [validateField]
    reports for that field's value otherwise. *)
Theorem validateForm_reports (fd : FormData) :
  ∃ e, validateForm fd = Some e
    ∧ e !! "phone" = None
    ∧ e !! "consent_marketing" = None
    ∧ ∀ k, k ≠ "phone" → e !! k = earned_error fd k.
Proof.
  destruct (validateForm_total fd) as [e He]. exists e.
  split; [done|]. split; [|split].
  - by rewrite (validateForm_lookup _ _ "phone" He).
  - by rewrite (validateForm_lookup _ _ "consent_marketing" He).
  - intros k Hk. rewrite (validateForm_lookup _ _ k He).
    by destruct (String.eqb_spec k "phone").
Qed.

Lemma validateForm_passes_fields fd :
  validateForm fd = Some ∅ ↔
  (∀ key, key ∈ formData_keys → key ≠ "phone" →
     validateField key (get_field fd key) = Some ∅)
  ∧ consent_data_processing fd = true.
Proof.
  split.
  - intros He. split.
    + intros key Hkey Hne.
      destruct (validateField_get_field fd key Hkey) as [fe Hfe].
      destruct (validateField_cases _ _ _ Hfe) as [->|(msg & _ & ->)];
        [done|].
      pose proof (validateForm_lookup _ _ key He) as Hk.
      rewrite lookup_empty in Hk.
      destruct (String.eqb_spec key "phone"); [done|].
      unfold earned_error in Hk. rewrite Hfe in Hk.
      destruct (String.eqb_spec key "consent_data_processing") as [->|_].
      * by rewrite validateField_unknown_key in Hfe
          by (intros H; repeat (apply elem_of_cons in H as [H|H];
                                [discriminate|]);
              by apply elem_of_nil in H).
      * cbn [mbind option_bind] in Hk.
        by rewrite lookup_singleton_eq in Hk.
    + pose proof (validateForm_lookup _ _ "consent_data_processing" He)
        as Hk.
      rewrite lookup_empty in Hk. unfold earned_error in Hk. simpl in Hk.
      by destruct (consent_data_processing fd).
  - intros [Hfields Hc]. unfold validateForm.
    rewrite (forEach_clean fd _ _ Hfields). simpl. by rewrite Hc.
Qed.

(** X8: [validateForm] returns the empty error set, so that a submit
    attempt reaches the transport, exactly when the trimmed name and company
    have 2 to 100 characters, the email has the accepted shape, the trimmed
    message has 10 to 2000 characters, a contact method is chosen and
    [consent_data_processing] is ticked; the phone value and
    [consent_marketing] play no part. *)
Theorem validateForm_passes_iff (fd : FormData) :
  validateForm fd = Some ∅ ↔
  (2 ≤ length (trim (name fd)) ∧ length (trim (name fd)) ≤ 100)%nat
  ∧ validateField "email" (VStr (email fd)) = Some ∅
  ∧ (2 ≤ length (trim (company fd)) ∧ length (trim (company fd)) ≤ 100)%nat
  ∧ (10 ≤ length (trim (message fd))
     ∧ length (trim (message fd)) ≤ 2000)%nat
  ∧ preferred_contact_method fd ≠ []
  ∧ consent_data_processing fd = true.
Proof.
  rewrite validateForm_passes_fields.
  rewrite <- (validateField_length_ok "name" 2 100 (name fd) eq_refl).
  rewrite <- (validateField_length_ok "company" 2 100 (company fd) eq_refl).
  rewrite <- (validateField_length_ok "message" 10 2000 (message fd)
                eq_refl).
  assert (Hpcm : preferred_contact_method fd ≠ []
                 ↔ validateField "preferred_contact_method"
                     (VStr (preferred_contact_method fd)) = Some ∅).
  { unfold validateField. simpl String.eqb. cbv iota. simpl truthy.
    destruct (preferred_contact_method fd); simpl; split; try done;
      try (intros H; apply (inj Some) in H; by apply insert_non_empty in H). }
  rewrite Hpcm. split.
  - intros [Hf Hc].
    pose proof (Hf "name") as H1. pose proof (Hf "email") as H2.
    pose proof (Hf "company") as H3. pose proof (Hf "message") as H4.
    pose proof (Hf "preferred_contact_method") as H5.
    unfold formData_keys in *.
    repeat split; first [done | apply H1 | apply H2 | apply H3 | apply H4
                         | apply H5]; first [done | by repeat constructor].
  - intros (H1 & H2 & H3 & H4 & H5 & Hc). split; [|done].
    intros key Hkey Hne. unfold formData_keys in Hkey.
    repeat (apply elem_of_cons in Hkey as [->|Hkey]);
      try (by apply elem_of_nil in Hkey); try done.
Qed.

(** * Further properties of the handlers *)

(** ** Field updates *)

Lemma get_field_set_field_eq fd name value :
  change_site name value = true →
  get_field (set_field fd name value) name = value.
Proof.
  destruct fd. unfold change_site.
  destruct value as [| |b|s]; try discriminate; intros H;
    apply bool_decide_eq_true in H;
    repeat (apply elem_of_cons in H as [->|H]);
    try (by apply elem_of_nil in H); reflexivity.
Qed.

Lemma get_field_set_field_ne fd name value k :
  k ≠ name → get_field (set_field fd name value) k = get_field fd k.
Proof.
  intros Hne. destruct fd. unfold set_field.
  destruct value as [| |b|s]; try reflexivity;
    repeat match goal with
           | |- context [String.eqb name ?x] =>
               destruct (String.eqb_spec name x) as [->|?]
           end; try reflexivity;
    unfold get_field;
    repeat match goal with
           | |- context [String.eqb k ?x] =>
               destruct (String.eqb_spec k x) as [Hk|?]; cbv iota
           end; done.
Qed.

Lemma consent_set_field fd name value :
  name ≠ "consent_data_processing" →
  consent_data_processing (set_field fd name value)
  = consent_data_processing fd.
Proof.
  intros Hne. destruct fd. unfold set_field.
  destruct value as [| |b|s]; try reflexivity;
    repeat match goal with
           | |- context [String.eqb name ?x] =>
               destruct (String.eqb_spec name x) as [->|?]
           end; done.
Qed.

Lemma earned_error_set_field fd name value k :
  k ≠ name →
  earned_error (set_field fd name value) k = earned_error fd k.
Proof.
  intros Hne. unfold earned_error.
  destruct (String.eqb_spec k "consent_data_processing") as [->|_].
  - by rewrite consent_set_field.
  - by rewrite get_field_set_field_ne.
Qed.

(** X9: a change handler stores the value under its key and nothing else:
    the field reads back as the value passed, every other field is as
    before, the error shown for the edited field is gone, every other
    error entry is as before, and the submission flags, the failure message
    and the session identity are untouched. *)
Theorem handleInputChange_stores (name : string) (value : jsval)
    (c : Component) :
  change_site name value = true →
  let c' := handleInputChange name value c in
  get_field (formData c') name = value
  ∧ (∀ k, k ≠ name → get_field (formData c') k = get_field (formData c) k)
  ∧ truthy (prop (validationErrors (formState c')) name) = false
  ∧ (∀ k, k ≠ name →
       validationErrors (formState c') !! k
       = validationErrors (formState c) !! k)
  ∧ isSubmitting (formState c') = isSubmitting (formState c)
  ∧ isSubmitted (formState c') = isSubmitted (formState c)
  ∧ error (formState c') = error (formState c)
  ∧ sessionId c' = sessionId c.
Proof.
  intros Hsite c'. subst c'. unfold handleInputChange.
  cbn [formData formState sessionId].
  split; [by apply get_field_set_field_eq|].
  split; [intros k Hk; by apply get_field_set_field_ne|].
  destruct (truthy (prop (validationErrors (formState c)) name)) eqn:Ht.
  - unfold with_validationErrors, prop. cbn [validationErrors isSubmitting
      isSubmitted error]. rewrite lookup_insert_eq.
    repeat split; try done. intros k Hk. by rewrite lookup_insert_ne.
  - rewrite Ht. repeat split; done.
Qed.

Lemma handleInputChange_stores_witness :
  change_site "email" (VStr (lit "ann@ex.com")) = true
  ∧ let c := comp (dispatch (Submit 1000 1001) (filled notAnEmail)) in
    let c' := handleInputChange "email" (VStr (lit "ann@ex.com")) c in
    truthy (prop (validationErrors (formState c)) "email") = true
    ∧ get_field (formData c') "email" = VStr (lit "ann@ex.com")
    ∧ truthy (prop (validationErrors (formState c')) "email") = false.
Proof.
  split; [reflexivity|]. cbv zeta. split; [vm_compute; reflexivity|].
  pose proof (handleInputChange_stores "email" (VStr (lit "ann@ex.com"))
                (comp (dispatch (Submit 1000 1001) (filled notAnEmail)))
                eq_refl) as H.
  cbv zeta in H. destruct H as (H1 & _ & H3 & _). split; [exact H1|exact H3].
Defined.

(** ** Blur *)

(** X10: a blur handler leaves the form record alone and touches no error
    entry but the one of its own field; running it again on the same value
    changes nothing more, and when the value passes the field check the
    blur changes nothing at all. *)
Theorem handleBlur_merges (name : string) (value : jsval) (c : Component) :
  let c' := handleBlur name value c in
  formData c' = formData c
  ∧ sessionId c' = sessionId c
  ∧ (∀ k, k ≠ name →
       validationErrors (formState c') !! k
       = validationErrors (formState c) !! k)
  ∧ handleBlur name value c' = c'
  ∧ (validateField name value = Some ∅ → c' = c).
Proof.
  intros c'. subst c'. unfold handleBlur.
  destruct (validateField name value) as [fe|] eqn:Hfe.
  - cbn [formData formState sessionId].
    split; [done|]. split; [done|]. split; [|split].
    + intros k Hk. unfold with_validationErrors. cbn [validationErrors].
      rewrite lookup_union, (validateField_other_key _ _ _ _ Hfe Hk).
      apply option_union_None_l.
    + unfold with_validationErrors.
      cbn [formData formState sessionId validationErrors isSubmitting
           isSubmitted error submissionStartTime eventId correlationId].
      by rewrite (assoc_L (∪)), (idemp_L (∪)).
    + intros [= ->]. destruct c as [fd [] sid]. unfold with_validationErrors.
      cbn. by rewrite (left_id_L ∅ (∪)).
  - repeat split; done.
Qed.

(** ** Invariants of the mounted form *)

Ltac proj_cbn :=
  cbn [comp formData formState sessionId inflight sent isSubmitting
       isSubmitted error validationErrors submissionStartTime eventId
       correlationId form_data session_id form_version fst snd] in *.

Lemma handleSubmit_settle_keeps o fs :
  validationErrors (handleSubmit_settle o fs) = validationErrors fs
  ∧ submissionStartTime (handleSubmit_settle o fs) = submissionStartTime fs
  ∧ isSubmitting (handleSubmit_settle o fs) = false.
Proof.
  destruct o as [msg|status msg|status result]; try done.
  unfold handleSubmit_settle. by destruct (ok status).
Qed.

Lemma blur_site_not_consent name :
  blur_site name = true → name ≠ "consent_data_processing".
Proof.
  unfold blur_site. intros H ->. by vm_compute in H.
Qed.

Lemma errors_fresh_dispatch e m : errors_fresh m → errors_fresh (dispatch e m).
Proof.
  intros Hinv. destruct m as [[fd fs sid] fly log]. unfold errors_fresh in *.
  proj_cbn.
  destruct e as [name value|name|now0 now1| |i o]; unfold dispatch;
    unfold form_rendered, controls_disabled; proj_cbn.
  - destruct (negb (isSubmitted fs) && negb (isSubmitting fs)
              && change_site name value); [|exact Hinv].
    unfold handleInputChange. proj_cbn. intros k v Hk Ht.
    destruct (decide (k = name)) as [->|Hne].
    + destruct (truthy (prop (validationErrors fs) name)) eqn:Hp.
      * unfold with_validationErrors in Hk. proj_cbn.
        rewrite lookup_insert_eq in Hk. injection Hk as <-. discriminate.
      * unfold prop in Hp. rewrite Hk in Hp. simpl in Hp. congruence.
    + rewrite earned_error_set_field by done. apply Hinv; [|done].
      destruct (truthy (prop (validationErrors fs) name)); [|done].
      unfold with_validationErrors in Hk. proj_cbn.
      by rewrite lookup_insert_ne in Hk.
  - destruct (negb (isSubmitted fs) && negb (isSubmitting fs)) ; [|exact Hinv].
    destruct (blur_site name) eqn:Hsite; [|exact Hinv].
    cbn [andb]. unfold handleBlur. proj_cbn.
    destruct (validateField name (get_field fd name)) as [fe|] eqn:Hfe;
      [|exact Hinv].
    proj_cbn. unfold with_validationErrors. proj_cbn. intros k v Hk Ht.
    apply lookup_union_Some_raw in Hk as [Hk|[_ Hk]]; [|by apply Hinv].
    destruct (decide (k = name)) as [->|Hne].
    + unfold earned_error.
      destruct (String.eqb_spec name "consent_data_processing") as [Hc|_].
      { by apply blur_site_not_consent in Hsite. }
      by rewrite Hfe.
    + by rewrite (validateField_other_key _ _ _ _ Hfe Hne) in Hk.
  - destruct (negb (isSubmitted fs) && negb (isSubmitting fs)); [|exact Hinv].
    unfold handleSubmit_start. proj_cbn.
    destruct (validateForm_total fd) as [e He]. rewrite He.
    destruct (0 <? size e)%nat; proj_cbn.
    + unfold with_validationErrors. proj_cbn. intros k v Hk Ht.
      rewrite (validateForm_lookup _ _ k He) in Hk.
      by destruct (String.eqb_spec k "phone").
    + exact Hinv.
  - destruct (isSubmitted fs); [|exact Hinv].
    unfold resetForm, initialFormState. proj_cbn.
    intros k v Hk. by rewrite lookup_empty in Hk.
  - destruct (fly !! i); [|exact Hinv]. proj_cbn.
    destruct (handleSubmit_settle_keeps o fs) as [-> _]. exact Hinv.
Qed.

Lemma errors_fresh_run es m : errors_fresh m → errors_fresh (run es m).
Proof.
  revert m. induction es as [|e es IH]; intros m Hm; [done|].
  rewrite run_cons. by apply IH, errors_fresh_dispatch.
Qed.

(** X11: in every machine a mounted form can reach, no message on display
    is stale: an entry of [validationErrors] that holds a message holds
    exactly the message the current value of that field earns (for the
    consent entry: the consent message, with the box still unticked). *)
Theorem errors_never_stale (es : list Event) (now : Z) (rnd : jsstring)
    (k : string) (v : jsval) :
  let m := run es (start now rnd) in
  validationErrors (formState (comp m)) !! k = Some v →
  truthy v = true →
  earned_error (formData (comp m)) k = Some v.
Proof.
  intros m. apply (errors_fresh_run es (start now rnd)).
  intros k' v' Hk.
  change (validationErrors (formState (comp (start now rnd))))
    with (∅ : gmap string jsval) in Hk.
  by rewrite lookup_empty in Hk.
Qed.

Lemma errors_never_stale_witness :
  let es := fill notAnEmail ++ [Submit 1000 1001] in
  let m := run es (start 1700000000000 (lit "k3j9x0q2m")) in
  validationErrors (formState (comp m)) !! "email"
  = Some (VStr (lit "Please enter a valid email address"))
  ∧ earned_error (formData (comp m)) "email"
    = Some (VStr (lit "Please enter a valid email address")).
Proof.
  cbv zeta.
  assert (Hk : validationErrors
                 (formState
                    (comp (run (fill notAnEmail ++ [Submit 1000 1001])
                             (start 1700000000000 (lit "k3j9x0q2m")))))
               !! "email"
               = Some (VStr (lit "Please enter a valid email address")))
    by (vm_compute; reflexivity).
  split; [exact Hk|].
  exact (errors_never_stale (fill notAnEmail ++ [Submit 1000 1001])
           1700000000000 (lit "k3j9x0q2m") "email" _ Hk eq_refl).
Defined.

Lemma validateForm_pass_consent fd :
  validateForm fd = Some ∅ → consent_data_processing fd = true.
Proof.
  intros He.
  pose proof (validateForm_lookup _ _ "consent_data_processing" He) as Hk.
  rewrite lookup_empty in Hk. unfold earned_error in Hk. simpl in Hk.
  by destruct (consent_data_processing fd).
Qed.

Lemma sent_valid_dispatch e m : sent_valid m → sent_valid (dispatch e m).
Proof.
  intros Hinv p Hp. rewrite sessionId_dispatch.
  destruct e as [name value|name|now0 now1| |i o]; unfold dispatch in Hp.
  - apply Hinv. by destruct (_ && _).
  - apply Hinv. by destruct (_ && _).
  - destruct (_ && _); [|by apply Hinv].
    unfold handleSubmit_start in Hp.
    destruct (validateForm (formData (comp m))) as [e|] eqn:He;
      [|by apply Hinv].
    destruct (0 <? size e)%nat eqn:Hsz; [by apply Hinv|].
    cbn [sent] in Hp. apply elem_of_app in Hp as [Hp|Hp]; [by apply Hinv|].
    apply list_elem_of_singleton in Hp as ->. cbn [form_data session_id
      form_version]. split; [|done].
    apply Nat.ltb_ge in Hsz. assert (size e = 0%nat) as Hz by lia.
    apply map_size_empty_iff in Hz. by rewrite <- Hz.
  - apply Hinv. by destruct (isSubmitted _).
  - apply Hinv. by destruct (_ !! _).
Qed.

Lemma sent_valid_run es m : sent_valid m → sent_valid (run es m).
Proof.
  revert m. induction es as [|e es IH]; intros m Hm; [done|].
  rewrite run_cons. by apply IH, sent_valid_dispatch.
Qed.

(** X12: nothing is ever sent that did not pass validation: every request
    a mounted form has handed to the transport carries a record for which
    [validateForm] is empty, hence with [consent_data_processing] ticked,
    together with the session identity generated at mount and the form
    version [1.0.0]. *)
Theorem sent_requests_validated (es : list Event) (now : Z)
    (rnd : jsstring) (p : Payload) :
  p ∈ sent (run es (start now rnd)) →
  validateForm (form_data p) = Some ∅
  ∧ consent_data_processing (form_data p) = true
  ∧ session_id p = newSessionId now rnd
  ∧ form_version p = lit "1.0.0".
Proof.
  intros Hp.
  assert (Hinv : sent_valid (run es (start now rnd))).
  { apply sent_valid_run. intros q Hq. by apply elem_of_nil in Hq. }
  destruct (Hinv p Hp) as (Hv & Hs & Hver).
  split; [done|]. split; [by apply validateForm_pass_consent|].
  split; [|done]. by rewrite Hs, sessionId_run.
Qed.

Lemma sent_requests_validated_witness :
  let es := fill annLee ++ [Submit 1000 1001] in
  let p := payload_of (comp (filled annLee)) 1000 1001 in
  p ∈ sent (run es (start 1700000000000 (lit "k3j9x0q2m")))
  ∧ validateForm (form_data p) = Some ∅
  ∧ consent_data_processing (form_data p) = true
  ∧ session_id p = newSessionId 1700000000000 (lit "k3j9x0q2m")
  ∧ form_version p = lit "1.0.0".
Proof.
  cbv zeta.
  assert (Hp : payload_of (comp (filled annLee)) 1000 1001
               ∈ sent (run (fill annLee ++ [Submit 1000 1001])
                         (start 1700000000000 (lit "k3j9x0q2m")))).
  { assert (E : sent (run (fill annLee ++ [Submit 1000 1001])
                        (start 1700000000000 (lit "k3j9x0q2m")))
                = [payload_of (comp (filled annLee)) 1000 1001])
      by (vm_compute; reflexivity).
    rewrite E. apply list_elem_of_singleton. reflexivity. }
  split; [exact Hp|].
  exact (sent_requests_validated _ _ _ _ Hp).
Defined.

Lemma flags_coherent_dispatch e m :
  consistent m → flags_coherent m → flags_coherent (dispatch e m).
Proof.
  intros [Hfly Hcard] (Herr & Hids & Ht0).
  destruct m as [[fd fs sid] fly log].
  destruct fs as [ing ed err ve t0 eid cid]. unfold flags_coherent in *.
  proj_cbn.
  destruct e as [name value|name|now0 now1| |i o]; unfold dispatch;
    unfold form_rendered, controls_disabled; proj_cbn.
  - destruct (negb ed && negb ing && change_site name value); [|done].
    unfold handleInputChange. proj_cbn.
    by destruct (truthy (prop ve name)).
  - destruct (negb ed && negb ing && blur_site name); [|done].
    unfold handleBlur. proj_cbn.
    by destruct (validateField name (get_field fd name)).
  - destruct ed, ing; cbn [negb andb]; try done.
    unfold handleSubmit_start. proj_cbn.
    destruct (validateForm fd) as [e|]; [|by proj_cbn].
    destruct (0 <? size e)%nat; proj_cbn; unfold with_validationErrors,
      with_isSubmitting; proj_cbn; done.
  - destruct ed; [|done]. unfold resetForm, initialFormState. by proj_cbn.
  - destruct (fly !! i) as [p|] eqn:Hp; [|done]. proj_cbn.
    assert (Hing : ing = true).
    { destruct ing; [done|]. by rewrite Hfly in Hp. }
    subst ing.
    assert (Hed : ed = false) by (destruct ed; [by apply Hcard|done]).
    subst ed.
    assert (Hnull : err = VNull).
    { destruct err; try done; by destruct Herr. }
    subst err. destruct (Hids eq_refl) as [-> ->].
    destruct o as [msg|status msg|status result];
      unfold handleSubmit_settle, handleSubmit_catch; proj_cbn; try done.
    destruct (ok status); proj_cbn; done.
Qed.

Lemma flags_coherent_run es m :
  consistent m → flags_coherent m → flags_coherent (run es m).
Proof.
  revert m. induction es as [|e es IH]; intros m Hc Hm; [done|].
  rewrite run_cons. apply IH; [by apply consistent_dispatch|].
  by apply flags_coherent_dispatch.
Qed.

(** X13: in every machine a mounted form can reach, the pieces of
    [formState] agree with one submission state: a failure message is
    present only when the form is neither submitting nor submitted, the
    backend identifiers are [null] unless it is submitted, the spinner and
    the thank-you card never show together, and while submitting a start
    time is recorded. *)
Theorem formState_coherent (es : list Event) (now : Z) (rnd : jsstring) :
  let fs := formState (comp (run es (start now rnd))) in
  (error fs ≠ VNull → isSubmitting fs = false ∧ isSubmitted fs = false)
  ∧ (isSubmitted fs = false → eventId fs = VNull ∧ correlationId fs = VNull)
  ∧ (isSubmitted fs = true → isSubmitting fs = false)
  ∧ (isSubmitting fs = true → submissionStartTime fs ≠ None).
Proof.
  intros fs.
  destruct (consistent_run es _ (consistent_start now rnd)) as [_ Hcard].
  assert (Hfl : flags_coherent (run es (start now rnd))).
  { apply flags_coherent_run; [apply consistent_start|].
    repeat split; done. }
  destruct Hfl as (H1 & H2 & H3). repeat split; try done.
  - by apply H1.
  - by apply H1.
  - by apply H2.
  - by apply H2.
Qed.

(** ** What moves the machine between submission states *)

Ltac state_cbn :=
  unfold with_validationErrors, with_isSubmitting, handleSubmit_catch,
    resetForm, initialFormState in *;
  proj_cbn.

(** X14: the thank-you state is entered by one event only: if a machine
    that is not submitted becomes submitted by an event, that event is the
    arrival of an answer with a status from 200 to 299 for a request that
    was in flight. *)
Theorem submitted_only_by_acknowledgment (e : Event) (m : Machine) :
  isSubmitted (formState (comp m)) = false →
  isSubmitted (formState (comp (dispatch e m))) = true →
  ∃ i status result,
    e = Settle i (Responded status result) ∧ ok status = true
    ∧ is_Some (inflight m !! i).
Proof.
  intros Hno Hyes. destruct m as [[fd fs sid] fly log]. proj_cbn.
  destruct e as [name value|name|now0 now1| |i o]; unfold dispatch in Hyes;
    unfold form_rendered, controls_disabled in Hyes; proj_cbn.
  - destruct (_ && _) in Hyes; proj_cbn; [|congruence].
    unfold handleInputChange in Hyes. proj_cbn.
    destruct (truthy _) in Hyes; state_cbn; congruence.
  - destruct (_ && _) in Hyes; proj_cbn; [|congruence].
    unfold handleBlur in Hyes. proj_cbn.
    destruct (validateField _ _) in Hyes; state_cbn; congruence.
  - destruct (_ && _) in Hyes; proj_cbn; [|congruence].
    unfold handleSubmit_start in Hyes. proj_cbn.
    destruct (validateForm fd) as [e|] in Hyes; proj_cbn; [|congruence].
    destruct (0 <? size e)%nat in Hyes; state_cbn; congruence.
  - rewrite Hno in Hyes. state_cbn. congruence.
  - destruct (fly !! i) as [p|] eqn:Hp; proj_cbn; [|congruence].
    destruct o as [msg|status msg|status result];
      unfold handleSubmit_settle, handleSubmit_catch in Hyes; proj_cbn;
      try congruence.
    destruct (ok status) eqn:Hok; proj_cbn; [|congruence].
    exists i, status, result. eauto.
Qed.

Lemma submitted_only_by_acknowledgment_witness :
  let m := dispatch (Submit 1000 1001) (filled annLee) in
  let e := Settle 0 (Responded 200 ack1) in
  isSubmitted (formState (comp m)) = false
  ∧ isSubmitted (formState (comp (dispatch e m))) = true
  ∧ ∃ i status result,
      e = Settle i (Responded status result) ∧ ok status = true
      ∧ is_Some (inflight m !! i).
Proof.
  cbv zeta. split; [reflexivity|]. split; [reflexivity|].
  apply (submitted_only_by_acknowledgment
           (Settle 0 (Responded 200 ack1))
           (dispatch (Submit 1000 1001) (filled annLee)));
    reflexivity.
Defined.

(** X15: a failure message appears by one event only: if a machine with
    no failure message has one after an event, that event is the arrival,
    for a request that was in flight, of an outcome the success branch does
    not handle (a status outside 200 to 299, or a rejected [fetch] or
    [json()]), and the message is a string. *)
Theorem error_only_by_failed_outcome (e : Event) (m : Machine) :
  error (formState (comp m)) = VNull →
  error (formState (comp (dispatch e m))) ≠ VNull →
  ∃ i o msg,
    e = Settle i o ∧ acknowledges o = false
    ∧ is_Some (inflight m !! i)
    ∧ error (formState (comp (dispatch e m))) = VStr msg.
Proof.
  intros Hno Hyes. destruct m as [[fd fs sid] fly log]. proj_cbn.
  destruct e as [name value|name|now0 now1| |i o]; unfold dispatch in *;
    unfold form_rendered, controls_disabled in *; proj_cbn.
  - destruct (_ && _); proj_cbn; [|congruence].
    unfold handleInputChange in Hyes. proj_cbn.
    destruct (truthy _) in Hyes; state_cbn; congruence.
  - destruct (_ && _); proj_cbn; [|congruence].
    unfold handleBlur in Hyes. proj_cbn.
    destruct (validateField _ _) in Hyes; state_cbn; congruence.
  - destruct (_ && _); proj_cbn; [|congruence].
    unfold handleSubmit_start in Hyes. proj_cbn.
    destruct (validateForm fd) as [e|] in Hyes; proj_cbn; [|congruence].
    destruct (0 <? size e)%nat in Hyes; state_cbn; congruence.
  - destruct (isSubmitted fs); state_cbn; congruence.
  - destruct (fly !! i) as [p|] eqn:Hp; proj_cbn; [|congruence].
    destruct o as [msg|status msg|status result];
      unfold handleSubmit_settle, handleSubmit_catch in *; proj_cbn.
    + exists i, (FetchRejected msg), msg. rewrite Hp. eauto.
    + exists i, (JsonRejected status msg), msg. rewrite Hp. eauto.
    + destruct (ok status) eqn:Hok; proj_cbn; [congruence|].
      eexists i, (Responded status result), _. rewrite Hp.
      cbn [acknowledges]. eauto.
Qed.

Lemma error_only_by_failed_outcome_witness :
  let m := dispatch (Submit 1000 1001) (filled annLee) in
  let e := Settle 0 (Responded 422 duplicate) in
  error (formState (comp m)) = VNull
  ∧ error (formState (comp (dispatch e m)))
    = VStr (lit "duplicate submission")
  ∧ ∃ i o msg,
      e = Settle i o ∧ acknowledges o = false
      ∧ is_Some (inflight m !! i)
      ∧ error (formState (comp (dispatch e m))) = VStr msg.
Proof.
  cbv zeta. split; [reflexivity|]. split; [vm_compute; reflexivity|].
  apply (error_only_by_failed_outcome
           (Settle 0 (Responded 422 duplicate))
           (dispatch (Submit 1000 1001) (filled annLee)));
    [reflexivity|].
  assert (E : error (formState (comp (dispatch
                (Settle 0 (Responded 422 duplicate))
                (dispatch (Submit 1000 1001) (filled annLee)))))
              = VStr (lit "duplicate submission"))
    by (vm_compute; reflexivity).
  rewrite E. discriminate.
Defined.

(** ** States in which the form does not react *)

(** X16: while a submission is in flight the form is frozen: in every
    reachable machine that is in Submitting, any event other than the
    arrival of the answer (an edit, a blur, a submit, a reset) leaves the
    whole machine as it is. *)
Theorem frozen_while_submitting (es : list Event) (now : Z)
    (rnd : jsstring) (e : Event) :
  let m := run es (start now rnd) in
  submissionState (formState (comp m)) = Submitting →
  is_settle e = false →
  dispatch e m = m.
Proof.
  intros m. unfold submissionState.
  destruct (isSubmitted (formState (comp m))) eqn:Hed; [discriminate|].
  destruct (isSubmitting (formState (comp m))) eqn:Hing;
    [|by destruct (error (formState (comp m)))].
  intros _ He. destruct e as [name value|name|now0 now1| |i o];
    try discriminate; unfold dispatch, controls_disabled;
    rewrite ?Hing, ?Hed, ?andb_false_r; done.
Qed.

Lemma frozen_while_submitting_witness :
  let es := fill annLee ++ [Submit 1000 1001] in
  let m := run es (start 1700000000000 (lit "k3j9x0q2m")) in
  submissionState (formState (comp m)) = Submitting
  ∧ is_settle (Change "name" (VStr (lit "Bob"))) = false
  ∧ dispatch (Change "name" (VStr (lit "Bob"))) m = m.
Proof.
  cbv zeta. split; [reflexivity|]. split; [reflexivity|].
  apply (frozen_while_submitting (fill annLee ++ [Submit 1000 1001])
           1700000000000 (lit "k3j9x0q2m")
           (Change "name" (VStr (lit "Bob")))); reflexivity.
Defined.

(** X17: once the thank-you card is shown, reset is the only way on: in
    every reachable machine that is submitted, any event other than reset,
    the arrival of an answer included, leaves the whole machine as it
    is. *)
Theorem only_reset_after_submitted (es : list Event) (now : Z)
    (rnd : jsstring) (e : Event) :
  let m := run es (start now rnd) in
  isSubmitted (formState (comp m)) = true →
  e ≠ Reset →
  dispatch e m = m.
Proof.
  intros m Hed He.
  destruct (consistent_run es _ (consistent_start now rnd)) as [Hfly Hcard].
  fold m in Hfly, Hcard. rewrite (Hcard Hed) in Hfly.
  destruct e as [name value|name|now0 now1| |i o]; try done;
    unfold dispatch, form_rendered; rewrite ?Hed, ?Hfly; done.
Qed.

Lemma only_reset_after_submitted_witness :
  let es := fill annLee
            ++ [Submit 1000 1001; Settle 0 (Responded 200 ack1)] in
  let m := run es (start 1700000000000 (lit "k3j9x0q2m")) in
  isSubmitted (formState (comp m)) = true
  ∧ Submit 2000 2001 ≠ Reset
  ∧ dispatch (Submit 2000 2001) m = m.
Proof.
  cbv zeta. split; [reflexivity|]. split; [discriminate|].
  apply (only_reset_after_submitted
           (fill annLee
            ++ [Submit 1000 1001; Settle 0 (Responded 200 ack1)])
           1700000000000 (lit "k3j9x0q2m") (Submit 2000 2001));
    [reflexivity | discriminate].
Defined.



(** ** Telemetry over several ticks *)

Lemma tick_step mul r1 r2 r3 prev :
  good_draw mul (r1, r2, r3) →
  (Telemetry.eventsProcessed prev
   ≤ Telemetry.eventsProcessed (Telemetry.tick mul r1 r2 r3 prev)
   ∧ Telemetry.eventsProcessed (Telemetry.tick mul r1 r2 r3 prev)
     ≤ Telemetry.eventsProcessed prev + 2)%Z
  ∧ (150 ≤ Telemetry.avgResponseTime (Telemetry.tick mul r1 r2 r3 prev)
     ∧ Telemetry.avgResponseTime (Telemetry.tick mul r1 r2 r3 prev) ≤ 249)%Z
  ∧ (Telemetry.systemHealth (Telemetry.tick mul r1 r2 r3 prev) = "healthy"
     ∨ Telemetry.systemHealth (Telemetry.tick mul r1 r2 r3 prev)
       = "degraded").
Proof.
  intros ((Hd1 & H1lo & H1hi) & (Hd2 & H2lo & H2hi) & _ & Hn1 & Hn2).
  cbn [fst snd] in *.
  pose proof (TelemetryFacts.double_below_one _ Hd1 H1hi) as H1top.
  pose proof (TelemetryFacts.double_below_one _ Hd2 H2hi) as H2top.
  assert (Ha : (0 ≤ Qfloor (mul r1 3%Q) ∧ Qfloor (mul r1 3%Q) ≤ 3 - 1)%Z).
  { apply (TelemetryFacts.nearest_floor_range (r1 * 3) _
             (3 - (3 # 9007199254740992)) (3 - (1 # 2251799813685248)));
      [done | lra | lra | apply TelemetryFacts.is_double_below_3
       | reflexivity | reflexivity]. }
  assert (Hb : (0 ≤ Qfloor (mul r2 100%Q)
                ∧ Qfloor (mul r2 100%Q) ≤ 100 - 1)%Z).
  { apply (TelemetryFacts.nearest_floor_range (r2 * 100) _
             (100 - (100 # 9007199254740992))
             (100 - (1 # 70368744177664)));
      [done | lra | lra | apply TelemetryFacts.is_double_below_100
       | reflexivity | reflexivity]. }
  unfold Telemetry.tick.
  cbn [Telemetry.eventsProcessed Telemetry.avgResponseTime
       Telemetry.systemHealth].
  split; [lia|]. split; [lia|]. destruct (Qlt_le_dec _ _); auto.
Qed.

(** X19: over any number of ticks the events counter never goes down and
    grows by at most two per tick, and after at least one tick the average
    response time is an integer from 150 to 249 and the health flag is
    [healthy] or [degraded], whatever the snapshot was before. *)
Theorem ticks_bounds (mul : Q → Q → Q) (draws : list (Q * Q * Q))
    (s : Telemetry.Stats) :
  Forall (good_draw mul) draws →
  let s' := ticks mul draws s in
  (Telemetry.eventsProcessed s ≤ Telemetry.eventsProcessed s'
   ∧ Telemetry.eventsProcessed s'
     ≤ Telemetry.eventsProcessed s + 2 * Z.of_nat (length draws))%Z
  ∧ (draws ≠ [] →
     (150 ≤ Telemetry.avgResponseTime s'
      ∧ Telemetry.avgResponseTime s' ≤ 249)%Z
     ∧ (Telemetry.systemHealth s' = "healthy"
        ∨ Telemetry.systemHealth s' = "degraded")).
Proof.
  intros Hall. cbv zeta.
  induction draws as [|[[r1 r2] r3] draws IH] using rev_ind.
  - cbn. split; [lia | done].
  - apply Forall_app in Hall as [Hall Hd]. apply Forall_inv in Hd.
    destruct (IH Hall) as [[Hlo Hhi] _].
    unfold ticks in *. rewrite foldl_app. cbn [foldl fst snd].
    pose proof (tick_step mul r1 r2 r3
                  (foldl (λ s d, Telemetry.tick mul d.1.1 d.1.2 d.2 s)
                     s draws) Hd) as ([Ha Hb] & Hc & Hh).
    rewrite length_app. cbn [length]. split; [lia|]. intros _. done.
Qed.

Lemma ticks_bounds_witness :
  let draws := [((1 # 2), (1 # 2), (1 # 16)); ((1 # 4), (3 # 4), (1 # 2))] in
  Forall (good_draw Qmult) draws
  ∧ ticks Qmult draws Telemetry.initialStats
    = Telemetry.mkStats 1 225 "healthy"
  ∧ let s' := ticks Qmult draws Telemetry.initialStats in
    (Telemetry.eventsProcessed Telemetry.initialStats
     ≤ Telemetry.eventsProcessed s'
     ∧ Telemetry.eventsProcessed s'
       ≤ Telemetry.eventsProcessed Telemetry.initialStats
         + 2 * Z.of_nat (length draws))%Z.
Proof.
  cbv zeta.
  assert (Hdbl : ∀ (x : Q) (m k : Z),
            (Z.abs m <? 2 ^ 53)%Z = true → (0 <=? k)%Z = true →
            (k <=? 1074)%Z = true →
            Qeq_bool (x * inject_Z (2 ^ k)) (inject_Z m) = true →
            Telemetry.is_double x).
  { intros x m k Hm Hk0 Hk1 Hx. exists m, k.
    apply Z.ltb_lt in Hm. apply Z.leb_le in Hk0, Hk1.
    apply Qeq_bool_iff in Hx. split; [done|]. right. split; [lia | done]. }
  assert (Hrnd : ∀ (x : Q) (m k : Z),
            (Z.abs m <? 2 ^ 53)%Z = true → (0 <=? k)%Z = true →
            (k <=? 1074)%Z = true →
            Qeq_bool (x * inject_Z (2 ^ k)) (inject_Z m) = true →
            Qle_bool 0 x = true → Qle_bool 1 x = false →
            Telemetry.is_random x).
  { intros x m k Hm Hk0 Hk1 Hx Hlo Hhi.
    split; [exact (Hdbl x m k Hm Hk0 Hk1 Hx)|].
    apply Qle_bool_iff in Hlo. split; [done|].
    apply Qnot_le_lt. intros Hle. apply Qle_bool_iff in Hle. congruence. }
  assert (Hexact : ∀ x, Telemetry.is_double x → Telemetry.nearest x x).
  { intros x Hx. split; [done|]. intros z _.
    setoid_replace (x - x)%Q with 0%Q using relation Qeq by ring.
    apply Qabs_nonneg. }
  assert (Hall : Forall (good_draw Qmult)
            [((1 # 2), (1 # 2), (1 # 16)); ((1 # 4), (3 # 4), (1 # 2))]).
  { repeat apply Forall_cons_2; [| |apply Forall_nil_2];
      unfold good_draw; cbn [fst snd].
    - split; [by apply (Hrnd _ 1%Z 1%Z)|].
      split; [by apply (Hrnd _ 1%Z 1%Z)|].
      split; [by apply (Hrnd _ 1%Z 4%Z)|].
      split; apply Hexact; [by apply (Hdbl _ 3%Z 1%Z)
                            | by apply (Hdbl _ 50%Z 0%Z)].
    - split; [by apply (Hrnd _ 1%Z 2%Z)|].
      split; [by apply (Hrnd _ 3%Z 2%Z)|].
      split; [by apply (Hrnd _ 1%Z 1%Z)|].
      split; apply Hexact; [by apply (Hdbl _ 3%Z 2%Z)
                            | by apply (Hdbl _ 75%Z 0%Z)]. }
  split; [exact Hall|]. split; [reflexivity|].
  exact (proj1 (ticks_bounds Qmult _ Telemetry.initialStats Hall)).
Defined.
